(** * stock_trend: the page script [docs/js/main.js]

    A shallow embedding of the [StockAnalyzer] class and of the two
    document-level listeners of [docs/js/main.js], followed by the
    properties of the loader, the renderers and the event handlers.

    Conventions of the embedding.
    - Values read from [data/latest.json] are JSON values ([JsVal]); the
      JavaScript coercions the script applies to them (truthiness, [??],
      [||], template-literal [ToString], [>= 0], property reads) are
      written out as functions on [JsVal].
    - Strings are byte strings holding UTF-8, as in the source file.
    - A method is a computation over the page state that may throw; the
      state reached before the throw is kept, as in JavaScript.
    - What the browser provides and the script only calls (date parsing,
      string-to-number conversion, the printing of a double outside the
      plain decimal range, the members of [Object.prototype]) is a
      parameter, class [Host]. *)

From Stdlib Require Import ZArith String Ascii List Bool Lia.
From stdpp Require Import base option list strings gmap pretty.

#[local] Set Warnings "-register-all".
Open Scope string_scope.

(** ** JSON values and their coercions *)

(** A JSON number, as its literal is written: the decimal
    [mant * 10^-scale].  [JSON.parse] keeps the double nearest to it
    (ties to even); the coercions below are those of that double. *)
Record JsNum := { mant : Z; scale : nat }.

Inductive JsVal :=
  | JUndefined
  | JNull
  | JBool (b : bool)
  | JNum (n : JsNum)
  | JStr (s : string)
  | JArr (l : list JsVal)
  | JObj (m : gmap string JsVal).

Definition numOfNat (n : nat) : JsNum := {| mant := Z.of_nat n; scale := 0 |}.

(** What the browser supplies and the script only calls. *)
Class Host := {
  (** [new Date(s).getTime()], in milliseconds; [None] is [NaN]
      (an invalid date). *)
  dateParse : string -> option Z;
  (** [ToNumber(s) >= 0] for a string [s]. *)
  stringGe0 : string -> bool;
  (** [Number::toString] of the double nearest to a decimal.  It is
      consulted only outside the range in which every engine prints the
      decimal itself, see [numToString]. *)
  numberText : JsNum -> string;
  (** [String(Object.prototype[k])] when [Object.prototype] has a member
      [k] ([constructor], [toString], [valueOf], [__proto__], ...), and
      [None] when it has none.  Every such member is a function or an
      object, hence truthy. *)
  objectPrototypeText : string -> option string;
}.

(** The double nearest to the decimal is [+0] or [-0]: the decimal is 0
    or its magnitude is at most [2^-1075], half of the least positive
    double. *)
Definition underflows (n : JsNum) : bool :=
  (Z.abs (mant n) * 2 ^ 1075 <=? 10 ^ Z.of_nat (scale n))%Z.

(** [n >= 0] and [n === 0] on numbers; [-0 >= 0] and [-0 === 0] hold. *)
Definition numGe0 (n : JsNum) : bool := (0 <=? mant n)%Z || underflows n.
Definition numIsZero (n : JsNum) : bool := underflows n.

(** Digits of [n], least significant first, exactly [k] of them. *)
Fixpoint digitsRev (k : nat) (n : N) : list N :=
  match k with
  | O => []
  | S k' => (n mod 10)%N :: digitsRev k' (n / 10)%N
  end.

Fixpoint dropZeros (ds : list N) : list N :=
  match ds with
  | 0%N :: ds' => dropZeros ds'
  | _ => ds
  end.

Definition digitChar (d : N) : ascii := ascii_of_N (48 + d).

Fixpoint stringOfDigits (ds : list N) : string :=
  match ds with
  | [] => ""
  | d :: ds' => String (digitChar d) (stringOfDigits ds')
  end.

(** The decimal in the plain notation: sign, integer part, and the
    fraction without trailing zeros. *)
Definition plainText (n : JsNum) : string :=
  let a := Z.abs_N (mant n) in
  let p := (10 ^ N.of_nat (scale n))%N in
  let frac := rev (dropZeros (digitsRev (scale n) (a mod p)%N)) in
  (if (mant n <? 0)%Z then "-" else "") +:+
  pretty (a / p)%N +:+
  match frac with
  | [] => ""
  | _ => "." +:+ stringOfDigits frac
  end.

(** [a] without its trailing decimal zeros. *)
Fixpoint dropTrailingZeros (fuel : nat) (a : N) : N :=
  match fuel with
  | O => a
  | S fuel' =>
      if (0 <? a)%N && (a mod 10 =? 0)%N
      then dropTrailingZeros fuel' (a / 10)%N
      else a
  end.

(** The decimal is 0, or it has at most 15 significant digits and a
    magnitude in [1e-6, 1e21).  Such a decimal is the shortest one that
    rounds to its double, and [Number::toString] uses the plain
    notation in that range. *)
Definition plainNum (n : JsNum) : bool :=
  let a := Z.abs_N (mant n) in
  let p := (10 ^ N.of_nat (scale n))%N in
  (a =? 0)%N ||
  ((p <=? a * 10 ^ 6)%N && (a <? 10 ^ 21 * p)%N &&
   (dropTrailingZeros (N.to_nat (N.log2 a)) a <? 10 ^ 15)%N).

(** [Number::toString] of the double a literal denotes.  Outside the
    plain range an engine rounds to 17 digits, switches to the exponent
    notation or prints [Infinity]: that text is the host's. *)
Definition numToString `{Host} (n : JsNum) : string :=
  if plainNum n then plainText n else numberText n.

(** Truthiness ([if (v)], [!v], [||]). *)
Definition truthy (v : JsVal) : bool :=
  match v with
  | JUndefined | JNull => false
  | JBool b => b
  | JNum n => negb (numIsZero n)
  | JStr s => negb (String.eqb s "")
  | JArr _ | JObj _ => true
  end.

(** [a || b] and [a ?? b]. *)
Definition jsOr (a b : JsVal) : JsVal := if truthy a then a else b.

Definition nullish (v : JsVal) : bool :=
  match v with
  | JUndefined | JNull => true
  | _ => false
  end.

Definition jsCoalesce (a b : JsVal) : JsVal := if nullish a then b else a.

Definition joinWith (sep : string) (parts : list string) : string :=
  match parts with
  | [] => ""
  | p :: ps => foldl (fun acc x => acc +:+ sep +:+ x) p ps
  end.

(** [ToString], as a template literal applies it.  [None] is the
    [TypeError] "Cannot convert object to primitive value": a parsed
    object whose own [toString] entry shadows the inherited method has no
    callable [toString], and the inherited [valueOf] returns the object
    itself.  An array prints as its elements joined by ",", with [null]
    and [undefined] elements printing as the empty string. *)
Fixpoint toStr `{Host} (v : JsVal) : option string :=
  match v with
  | JUndefined => Some "undefined"
  | JNull => Some "null"
  | JBool true => Some "true"
  | JBool false => Some "false"
  | JNum n => Some (numToString n)
  | JStr s => Some s
  | JArr l =>
      joinWith "," <$>
      (fix elems (l : list JsVal) : option (list string) :=
         match l with
         | [] => Some []
         | x :: l' =>
             match (if nullish x then Some "" else toStr x), elems l' with
             | Some s, Some ss => Some (s :: ss)
             | _, _ => None
             end
         end) l
  | JObj m =>
      match m !! "toString" with
      | Some _ => None
      | None => Some "[object Object]"
      end
  end.

(** [v >= 0].  [None] is the [TypeError] of [toStr].  An object without
    an own [toString] converts to "[object Object]", hence to [NaN]. *)
Definition ge0 `{Host} (v : JsVal) : option bool :=
  match v with
  | JUndefined => Some false
  | JNull => Some true
  | JBool _ => Some true
  | JNum n => Some (numGe0 n)
  | JStr s => Some (stringGe0 s)
  | JArr _ => stringGe0 <$> toStr v
  | JObj _ => (fun _ => false) <$> toStr v
  end.

(** Number of UTF-16 code units of a UTF-8 string: one per character,
    two for a character outside the basic plane (a four-byte sequence). *)
Fixpoint utf16Length (s : string) : nat :=
  match s with
  | "" => 0
  | String c s' =>
      let b := N_of_ascii c in
      ((if (b <? 128)%N || (192 <=? b)%N then 1 else 0) +
       (if (240 <=? b)%N then 1 else 0) + utf16Length s')%nat
  end.

Definition isDigit (c : ascii) : bool :=
  let b := N_of_ascii c in (48 <=? b)%N && (b <=? 57)%N.

Fixpoint natOfDigits (acc : nat) (s : string) : option nat :=
  match s with
  | "" => Some acc
  | String c s' =>
      if isDigit c
      then natOfDigits (10 * acc + (N.to_nat (N_of_ascii c) - 48)) s'
      else None
  end.

(** A property key that is an array index: a decimal numeral without a
    leading zero. *)
Definition arrayIndex (k : string) : option nat :=
  match k with
  | "" => None
  | String "0" "" => Some 0%nat
  | String "0" _ => None
  | _ => natOfDigits 0 k
  end.

(** [v.k] and [v[k]] on a parsed value: the own data properties.  [None]
    is the [TypeError] of reading a property of [null] or [undefined].
    Members inherited from the built-in prototypes and the indexed
    characters of a string are not data of the snapshot and read as
    [undefined] here; the two inherited methods the script calls
    ([Array.prototype.map], [String.prototype.replace]) are handled where
    they are called. *)
Definition getProp (v : JsVal) (k : string) : option JsVal :=
  match v with
  | JUndefined | JNull => None
  | JObj m => Some (default JUndefined (m !! k))
  | JArr l =>
      if String.eqb k "length" then Some (JNum (numOfNat (length l)))
      else Some (default JUndefined (i ← arrayIndex k; l !! i))
  | JStr s =>
      if String.eqb k "length" then Some (JNum (numOfNat (utf16Length s)))
      else Some JUndefined
  | JBool _ | JNum _ => Some JUndefined
  end.

(** [v?.k]. *)
Definition getPropOpt (v : JsVal) (k : string) : JsVal :=
  default JUndefined (getProp v k).

(** ** Markup text *)

Definition dq : string := String (ascii_of_nat 34) "".
Definition nl : string := String (ascii_of_nat 10) "".

Fixpoint sp (n : nat) : string :=
  match n with
  | O => ""
  | S n' => String " " (sp n')
  end.

(** One line of a template literal: a line break, the indentation, the
    text. *)
Definition line (indent : nat) (text : string) : string :=
  nl +:+ sp indent +:+ text.

(** Serialisation of a text node, as [innerHTML] returns it for an
    element whose content was set through [textContent] (the HTML
    fragment serialisation algorithm, "escaping a string" outside
    attribute mode): [&], [<], [>] and U+00A0 (bytes 194 160) become
    character references. *)
Fixpoint escapeText (s : string) : string :=
  match s with
  | "" => ""
  | String c s' =>
      if Ascii.eqb c "&" then "&amp;" +:+ escapeText s'
      else if Ascii.eqb c "<" then "&lt;" +:+ escapeText s'
      else if Ascii.eqb c ">" then "&gt;" +:+ escapeText s'
      else
        match s' with
        | String c' s'' =>
            if Ascii.eqb c "194" && Ascii.eqb c' "160"
            then "&nbsp;" +:+ escapeText s''
            else String c (escapeText s')
        | "" => String c ""
        end
  end.

(** The string a [textContent] setter stores: [null] and [undefined]
    give the empty string (the attribute is a nullable string), any
    other value is converted with [ToString]. *)
Definition textOf `{Host} (v : JsVal) : option string :=
  if nullish v then Some "" else toStr v.

(** [escapeHtml(text)]: a detached [div] receives [text] as its
    [textContent] and its [innerHTML] is returned. *)
Definition escapeHtml `{Host} (text : JsVal) : option string :=
  escapeText <$> textOf text.

(** ** The page state *)

(** What an element holds: the markup assigned to [innerHTML], or the
    text assigned to [textContent].  The markup is kept as the string
    the script assigned; it is not parsed, so the elements it would
    create are not elements of the model.  The page state below holds
    the elements the script looks up by id, taken to lie outside one
    another, and the buttons of the static page. *)
Inductive Content :=
  | InnerHTML (html : string)
  | TextContent (text : string).

(** A [.tab-btn] button: its [data-period] attribute ([None] when the
    attribute is missing, so that [dataset.period] is [undefined]) and
    whether its class list holds [active]. *)
Record TabBtn := { period : option string; active : bool }.

(** What runs once a pending [loadData()] settles: the rest of [init],
    or the [render()] chained by the visibility listener. *)
Inductive Continuation :=
  | AfterInit
  | AfterReload.

Record World := {
  (** [window.stockAnalyzer] is set *)
  created : bool;
  (** [this.data], [this.currentPeriod] *)
  data : JsVal;
  currentPeriod : option string;
  (** elements with an id, as [document.getElementById] finds them *)
  elements : gmap string Content;
  (** [document.querySelectorAll('.tab-btn')], and whether [bindEvents]
      has attached the click listeners *)
  tabs : list TabBtn;
  tabsBound : bool;
  (** the [backToTop] button: [None] when the page has none, otherwise
      whether its class list holds [visible]; and whether
      [initBackToTop] has attached its listeners *)
  backToTop : option bool;
  backToTopBound : bool;
  (** every URL passed to [fetch], latest first *)
  requests : list string;
  (** the [loadData()] calls that await their response, oldest first *)
  pending : list Continuation;
}.

Definition setData (v : JsVal) (w : World) : World :=
  {| created := created w; data := v; currentPeriod := currentPeriod w;
     elements := elements w; tabs := tabs w; tabsBound := tabsBound w;
     backToTop := backToTop w; backToTopBound := backToTopBound w;
     requests := requests w; pending := pending w |}.

Definition setCurrentPeriod (p : option string) (w : World) : World :=
  {| created := created w; data := data w; currentPeriod := p;
     elements := elements w; tabs := tabs w; tabsBound := tabsBound w;
     backToTop := backToTop w; backToTopBound := backToTopBound w;
     requests := requests w; pending := pending w |}.

Definition setElements (e : gmap string Content) (w : World) : World :=
  {| created := created w; data := data w; currentPeriod := currentPeriod w;
     elements := e; tabs := tabs w; tabsBound := tabsBound w;
     backToTop := backToTop w; backToTopBound := backToTopBound w;
     requests := requests w; pending := pending w |}.

Definition setTabs (t : list TabBtn) (w : World) : World :=
  {| created := created w; data := data w; currentPeriod := currentPeriod w;
     elements := elements w; tabs := t; tabsBound := tabsBound w;
     backToTop := backToTop w; backToTopBound := backToTopBound w;
     requests := requests w; pending := pending w |}.

Definition setTabsBound (b : bool) (w : World) : World :=
  {| created := created w; data := data w; currentPeriod := currentPeriod w;
     elements := elements w; tabs := tabs w; tabsBound := b;
     backToTop := backToTop w; backToTopBound := backToTopBound w;
     requests := requests w; pending := pending w |}.

Definition setBackToTop (v : option bool) (bound : bool) (w : World) : World :=
  {| created := created w; data := data w; currentPeriod := currentPeriod w;
     elements := elements w; tabs := tabs w; tabsBound := tabsBound w;
     backToTop := v; backToTopBound := bound;
     requests := requests w; pending := pending w |}.

Definition setNetwork (rs : list string) (ps : list Continuation)
    (w : World) : World :=
  {| created := created w; data := data w; currentPeriod := currentPeriod w;
     elements := elements w; tabs := tabs w; tabsBound := tabsBound w;
     backToTop := backToTop w; backToTopBound := backToTopBound w;
     requests := rs; pending := ps |}.

(** ** Computations that read and write the page and may throw *)

Inductive Completion (A : Type) :=
  | Normal (a : A)
  | Thrown.
Arguments Normal {A} a.
Arguments Thrown {A}.

Definition M (A : Type) : Type := World -> Completion A * World.

#[export] Instance M_ret : MRet M := fun A a w => (Normal a, w).

#[export] Instance M_bind : MBind M := fun A B f c w =>
  match c w with
  | (Normal a, w') => f a w'
  | (Thrown, w') => (Thrown, w')
  end.

Definition gets {A} (f : World -> A) : M A := fun w => (Normal (f w), w).
Definition modify (f : World -> World) : M unit := fun w => (Normal tt, f w).

(** A pure step that throws when its result is [None]. *)
Definition lift {A} (o : option A) : M A := fun w =>
  match o with
  | Some a => (Normal a, w)
  | None => (Thrown, w)
  end.

Definition exec {A} (c : M A) (w : World) : World := snd (c w).
Definition completes {A} (c : M A) (w : World) : bool :=
  match fst (c w) with
  | Normal _ => true
  | Thrown => false
  end.

(** [const el = document.getElementById(id); if (el) { body }]. *)
Definition whenElement (id : string) (body : M unit) : M unit := fun w =>
  match elements w !! id with
  | Some _ => body w
  | None => (Normal tt, w)
  end.

(** [el.innerHTML = html] and [el.textContent = text] on the element
    [id]: what the element holds is replaced by the assigned string. *)
Definition setInnerHTML (id html : string) : M unit :=
  modify (fun w => setElements (<[id := InnerHTML html]> (elements w)) w).
Definition setTextContent (id text : string) : M unit :=
  modify (fun w => setElements (<[id := TextContent text]> (elements w)) w).

Fixpoint forEach {A} (l : list A) (f : A -> M unit) : M unit :=
  match l with
  | [] => mret tt
  | x :: l' => f x ;; forEach l' f
  end.

(** ** The class [StockAnalyzer] *)

Definition dataPath : string := "data/latest.json".

Definition containers : list string :=
  ["marketOverview"; "gainersList"; "losersList"; "statisticsContent"].

(** [<div class="c">] *)
Definition divOpen (c : string) : string :=
  "<div class=" +:+ dq +:+ c +:+ dq +:+ ">".

Definition loadingView : string :=
  divOpen "loading" +:+ "数据加载中...</div>".
Definition emptyListView : string :=
  divOpen "empty" +:+ "暂无数据</div>".
Definition emptyMarketView : string :=
  divOpen "empty" +:+ "暂无市场数据</div>".
Definition emptyStatisticsView : string :=
  divOpen "empty" +:+ "暂无统计数据</div>".

Definition errorView (message : string) : string :=
  line 20 (divOpen "error") +:+
  line 24 (divOpen "error-icon" +:+ "⚠️</div>") +:+
  line 24 ("<div>" +:+ message +:+ "</div>") +:+
  line 20 "</div>" +:+
  line 16 "".

Definition loadFailedMessage : string := "数据加载失败，请稍后刷新重试".
Definition noDataMessage : string := "暂无数据".

Definition showLoading : M unit :=
  forEach containers (fun id => whenElement id (setInnerHTML id loadingView)).

Definition showError (message : string) : M unit :=
  forEach containers
    (fun id => whenElement id (setInnerHTML id (errorView message))).

(** The outcome of [fetch] followed by [response.json()]: the request is
    rejected, or a response arrives with its [ok] flag, its status, and
    its body parsed as JSON ([None] when the body is not valid JSON). *)
Inductive Response :=
  | NetworkError
  | HttpResponse (ok : bool) (status : nat) (body : option JsVal).

(** [loadData] up to its first [await]: the request is issued, with the
    current time as the cache-defeating parameter. *)
Definition fetchUrl (now : Z) : string := dataPath +:+ "?t=" +:+ pretty now.

Definition loadDataRequest (now : Z) (k : Continuation) : M unit :=
  modify (fun w => setNetwork (fetchUrl now :: requests w) (pending w ++ [k]) w).

(** [loadData] from the response on: the [try] block stores the parsed
    body, and every failure (rejected request, [!response.ok], rejected
    [response.json()]) lands in the [catch] block.  The two console
    messages are not part of the state. *)
Definition loadDataSettle (r : Response) : M unit :=
  match r with
  | HttpResponse true _ (Some v) => modify (setData v)
  | _ => showError loadFailedMessage
  end.

(** The property key a period is converted to. *)
Definition periodKey (p : option string) : string := default "undefined" p.

Definition labels : gmap string string :=
  {[ "5d" := "5日"; "10d" := "10日"; "20d" := "20日" ]}.

(** [labels[period] || period].  Every label is a non-empty string.
    [labels] is an object literal, so a key that is none of its own
    reads the member of that name inherited from [Object.prototype],
    when there is one: a truthy value, which is returned.  The result is
    used only as a text (a [textContent], a template substitution), so
    such a member is kept as the text it converts to; [None] is
    [undefined]. *)
Definition getPeriodLabel `{Host} (p : option string) : option string :=
  match labels !! periodKey p with
  | Some l => Some l
  | None =>
      match objectPrototypeText (periodKey p) with
      | Some text => Some text
      | None => p
      end
  end.

Definition jsOfOptString (o : option string) : JsVal :=
  match o with
  | Some s => JStr s
  | None => JUndefined
  end.

Definition renderUpdateTime `{Host} : M unit :=
  whenElement "updateTime"
    (d ← gets data;
     t ← lift (getProp d "update_time");
     if truthy t
     then s ← lift (textOf t); setTextContent "updateTime" s
     else mret tt).

(** An entry of the [items] arrays of [renderMarketOverview] and
    [renderStatistics]. *)
Record Item := { label : string; value : JsVal; class : string }.

(** The value and the class of the "average change" entries:
    [`${x >= 0 ? '+' : ''}${x}%`] and [x >= 0 ? 'up' : 'down']. *)
Definition avgChangeItem `{Host} (lbl : string) (x : JsVal) : option Item :=
  pos ← ge0 x;
  s ← toStr x;
  Some {| label := lbl;
          value := JStr ((if pos : bool then "+" else "") +:+ s +:+ "%");
          class := if pos : bool then "up" else "down" |}.

Definition overviewItems `{Host} (overview : JsVal) : option (list Item) :=
  total_stocks ← getProp overview "total_stocks";
  up_stocks ← getProp overview "up_stocks";
  down_stocks ← getProp overview "down_stocks";
  limit_up ← getProp overview "limit_up";
  limit_down ← getProp overview "limit_down";
  avg_change ← getProp overview "avg_change";
  avg ← avgChangeItem "平均涨跌" avg_change;
  total_amount ← getProp overview "total_amount";
  Some [ {| label := "股票总数"; value := total_stocks; class := "neutral" |};
         {| label := "上涨家数"; value := up_stocks; class := "up" |};
         {| label := "下跌家数"; value := down_stocks; class := "down" |};
         {| label := "涨停"; value := limit_up; class := "up" |};
         {| label := "跌停"; value := limit_down; class := "down" |};
         avg;
         {| label := "成交额(亿)"; value := total_amount; class := "neutral" |} ].

(** The template of one overview entry; [shown] is [item.value ?? '-']
    converted to a string. *)
Definition overviewItemView (lbl cls shown : string) : string :=
  line 12 (divOpen "overview-item") +:+
  line 16 (divOpen "label" +:+ lbl +:+ "</div>") +:+
  line 16 (divOpen ("value " +:+ cls) +:+ shown +:+ "</div>") +:+
  line 12 "</div>" +:+
  line 8 "".

Definition overviewItem `{Host} (item : Item) : option string :=
  shown ← toStr (jsCoalesce (value item) (JStr "-"));
  Some (overviewItemView (label item) (class item) shown).

Definition renderMarketOverview `{Host} : M unit :=
  whenElement "marketOverview"
    (d ← gets data;
     overview ← lift (getProp d "market_overview");
     if negb (truthy overview)
     then setInnerHTML "marketOverview" emptyMarketView
     else
       items ← lift (overviewItems overview);
       views ← lift (mapM overviewItem items);
       setInnerHTML "marketOverview" (joinWith "" views)).

(** [index < 3 ? `top${index + 1}` : ''] and
    [type === 'gainer' ? '+' : '']. *)
Definition rankClass (index : nat) : string :=
  if (index <? 3)%nat then "top" +:+ pretty (index + 1)%nat else "".

Definition changePrefix (type : string) : string :=
  if String.eqb type "gainer" then "+" else "".

(** The template of one ranking row, with its six substitutions as
    strings. *)
Definition rankingItemView (rankCls rank name symbol price change : string)
    : string :=
  line 16 (divOpen "ranking-item") +:+
  line 20 (divOpen ("rank " +:+ rankCls) +:+ rank +:+ "</div>") +:+
  line 20 (divOpen "stock-info") +:+
  line 24 (divOpen "stock-name" +:+ name +:+ "</div>") +:+
  line 24 (divOpen "stock-code") +:+
  line 28 symbol +:+
  line 28 ("<span class=" +:+ dq +:+ "stock-price" +:+ dq +:+ ">¥" +:+
           price +:+ "</span>") +:+
  line 24 "</div>" +:+
  line 20 "</div>" +:+
  line 20 (divOpen "stock-change" +:+ change +:+ "%</div>") +:+
  line 16 "</div>" +:+
  line 12 "".

(** The callback of [stocks.map]. *)
Definition rankingItem `{Host} (type : string) (stock : JsVal) (index : nat)
    : option string :=
  name ← getProp stock "name" ≫= escapeHtml;
  symbol ← getProp stock "symbol" ≫= toStr;
  price ← getProp stock "price" ≫= toStr;
  period_change ← getProp stock "period_change" ≫= toStr;
  Some (rankingItemView (rankClass index) (pretty (index + 1)%nat)
          name symbol price (changePrefix type +:+ period_change)).

(** [stocks.map(callback)] on an array, from index [index] on. *)
Fixpoint rankingItems `{Host} (type : string) (stocks : list JsVal)
    (index : nat) : option (list string) :=
  match stocks with
  | [] => Some []
  | stock :: rest =>
      row ← rankingItem type stock index;
      rows ← rankingItems type rest (S index);
      Some (row :: rows)
  end.

(** [v === 0]. *)
Definition strictEqZero (v : JsVal) : bool :=
  match v with
  | JNum n => numIsZero n
  | _ => false
  end.

(** [renderRankingList(stocks, type)].  A truthy value that is not an
    array has no callable [map] (a parsed object can only hold data
    under that key), so the call throws. *)
Definition renderRankingList `{Host} (stocks : JsVal) (type : string)
    : option string :=
  if negb (truthy stocks) then Some emptyListView
  else
    len ← getProp stocks "length";
    if strictEqZero len then Some emptyListView
    else
      match stocks with
      | JArr l => joinWith "" <$> rankingItems type l 0
      | _ => None
      end.

Definition renderRankings `{Host} : M unit :=
  d ← gets data;
  p ← gets currentPeriod;
  periods ← lift (getProp d "periods");
  periodData ← (if truthy periods
                then lift (getProp periods (periodKey p))
                else mret JUndefined);
  if negb (truthy periods) || negb (truthy periodData)
  then
    whenElement "gainersList" (setInnerHTML "gainersList" emptyListView);;
    whenElement "losersList" (setInnerHTML "losersList" emptyListView)
  else
    whenElement "gainersList"
      (gainers ← lift (getProp periodData "gainers");
       html ← lift (renderRankingList gainers "gainer");
       setInnerHTML "gainersList" html);;
    whenElement "losersList"
      (losers ← lift (getProp periodData "losers");
       html ← lift (renderRankingList losers "loser");
       setInnerHTML "losersList" html).

Definition statisticsItems `{Host} (stats : JsVal) (periodLabel : option string)
    : option (list Item) :=
  sample_size ← getProp stats "sample_size";
  total_stocks ← getProp stats "total_stocks";
  avg_change ← getProp stats "avg_change";
  avg ← avgChangeItem "平均涨跌幅" avg_change;
  up_ratio ← getProp stats "up_ratio";
  ratio ← toStr (jsOr up_ratio (JStr "-"));
  Some [ {| label := "分析周期"; value := jsOfOptString periodLabel;
            class := "" |};
         {| label := "样本数量";
            value := jsOr (jsOr sample_size total_stocks) (JStr "-");
            class := "" |};
         avg;
         {| label := "上涨比例"; value := JStr (ratio +:+ "%"); class := "" |} ].

Definition statItemView (lbl cls shown : string) : string :=
  line 20 (divOpen "stat-item") +:+
  line 24 (divOpen "label" +:+ lbl +:+ "</div>") +:+
  line 24 (divOpen ("value " +:+ cls) +:+ shown +:+ "</div>") +:+
  line 20 "</div>" +:+
  line 16 "".

Definition statItem `{Host} (item : Item) : option string :=
  shown ← toStr (value item);
  Some (statItemView (label item) (class item) shown).

Definition statisticsView (views : list string) : string :=
  line 12 (divOpen "stats-grid") +:+
  line 16 (joinWith "" views) +:+
  line 12 "</div>" +:+
  line 8 "".

Definition renderStatistics `{Host} : M unit :=
  whenElement "statisticsContent"
    (d ← gets data;
     p ← gets currentPeriod;
     periods ← lift (getProp d "periods");
     let periodData := getPropOpt periods (periodKey p) in
     let stats := getPropOpt periodData "statistics" in
     if negb (truthy stats)
     then setInnerHTML "statisticsContent" emptyStatisticsView
     else
       items ← lift (statisticsItems stats (getPeriodLabel p));
       views ← lift (mapM statItem items);
       setInnerHTML "statisticsContent" (statisticsView views)).

Definition updatePeriodBadges `{Host} : M unit :=
  p ← gets currentPeriod;
  let label := default "" (getPeriodLabel p) in
  whenElement "gainersPeriod" (setTextContent "gainersPeriod" label);;
  whenElement "losersPeriod" (setTextContent "losersPeriod" label).

Definition render `{Host} : M unit :=
  d ← gets data;
  if negb (truthy d) then showError noDataMessage
  else
    renderUpdateTime;;
    renderMarketOverview;;
    renderRankings;;
    renderStatistics;;
    updatePeriodBadges.

Definition bindEvents : M unit := modify (setTabsBound true).

(** The click listener of the tab button number [i]: every button loses
    [active], the clicked one gains it, the period follows its
    [data-period], and three of the views are rendered again. *)
Definition onTabClick `{Host} (i : nat) : M unit :=
  ts ← gets tabs;
  match ts !! i with
  | None => mret tt
  | Some btn =>
      modify (setTabs (imap (fun j b => {| period := period b;
                                           active := bool_decide (j = i) |}) ts));;
      modify (setCurrentPeriod (period btn));;
      renderRankings;;
      renderStatistics;;
      updatePeriodBadges
  end.

Definition initBackToTop : M unit :=
  btn ← gets backToTop;
  match btn with
  | None => mret tt
  | Some _ => modify (fun w => setBackToTop (backToTop w) true w)
  end.

(** The scroll listener: [visible] is held exactly when
    [window.scrollY > 300]. *)
Definition onScroll (scrollY : Z) : M unit :=
  modify (fun w => setBackToTop ((fun _ => (300 <? scrollY)%Z) <$> backToTop w)
                     (backToTopBound w) w).

(** [new StockAnalyzer()] up to the first [await] of [init], and the
    assignment to [window.stockAnalyzer]. *)
Definition construct (now : Z) : M unit :=
  modify (setData JNull);;
  modify (setCurrentPeriod (Some "5d"));;
  showLoading;;
  loadDataRequest now AfterInit;;
  modify (fun w =>
    {| created := true; data := data w; currentPeriod := currentPeriod w;
       elements := elements w; tabs := tabs w; tabsBound := tabsBound w;
       backToTop := backToTop w; backToTopBound := backToTopBound w;
       requests := requests w; pending := pending w |}).

(** What follows the [await] of a [loadData()] call. *)
Definition resume `{Host} (k : Continuation) : M unit :=
  match k with
  | AfterInit => bindEvents;; render;; initBackToTop
  | AfterReload => render
  end.

Definition oneHour : Z := 60 * 60 * 1000.

(** [s.replace(/-/g, '/')]. *)
Fixpoint replaceDashes (s : string) : string :=
  match s with
  | "" => ""
  | String c s' =>
      String (if Ascii.eqb c "-" then "/"%char else c) (replaceDashes s')
  end.

(** The [visibilitychange] listener.  A truthy [update_time] that is not
    a string has no callable [replace], so the listener throws. *)
Definition onVisibilityChange `{Host} (visible : bool) (now : Z) : M unit :=
  c ← gets created;
  if visible && c
  then
    d ← gets data;
    let lastUpdate := getPropOpt d "update_time" in
    if truthy lastUpdate
    then
      match lastUpdate with
      | JStr s =>
          match dateParse (replaceDashes s) with
          | Some updateTime =>
              if (oneHour <? now - updateTime)%Z
              then loadDataRequest now AfterReload
              else mret tt
          | None => mret tt
          end
      | _ => lift None
      end
    else mret tt
  else mret tt.

(** ** The event loop *)

(** The events the script listens to, and the settling of a pending
    request.  The script registers no timer. *)
Inductive Event :=
  | DOMContentLoaded (now : Z)
  | VisibilityChange (visible : bool) (now : Z)
  | FetchSettled (i : nat) (r : Response)
  | TabClick (i : nat)
  | Scroll (scrollY : Z)
  | BackToTopClick.

(** The listener an event runs.  [DOMContentLoaded] fires once per
    document; a request settles by running the rest of [loadData] and
    then what awaited it; the back-to-top click only asks the browser to
    scroll. *)
Definition handler `{Host} (e : Event) : M unit :=
  match e with
  | DOMContentLoaded now =>
      c ← gets created;
      if c : bool then mret tt else construct now
  | VisibilityChange visible now => onVisibilityChange visible now
  | FetchSettled i r =>
      ps ← gets pending;
      match ps !! i with
      | None => mret tt
      | Some k =>
          modify (fun w => setNetwork (requests w) (delete i (pending w)) w);;
          loadDataSettle r;;
          resume k
      end
  | TabClick i =>
      bound ← gets tabsBound;
      if bound : bool then onTabClick i else mret tt
  | Scroll scrollY =>
      bound ← gets backToTopBound;
      if bound : bool then onScroll scrollY else mret tt
  | BackToTopClick => mret tt
  end.

(** An uncaught exception ends the listener and leaves the state as it
    is. *)
Definition dispatch `{Host} (e : Event) (w : World) : World :=
  exec (handler e) w.

(** A page before the script runs. *)
Definition initialWorld (els : gmap string Content) (ts : list TabBtn)
    (btt : option bool) : World :=
  {| created := false; data := JNull; currentPeriod := None;
     elements := els; tabs := ts; tabsBound := false;
     backToTop := btt; backToTopBound := false;
     requests := []; pending := [] |}.

(** ** A reference host and a sample page, for evaluation *)

Module Sample.

(** Days from 1970-01-01 to the civil date [y]-[m]-[d]. *)
Definition daysFromCivil (y m d : Z) : Z :=
  let y' := (if m <=? 2 then y - 1 else y)%Z in
  let era := (y' / 400)%Z in
  let yoe := (y' - era * 400)%Z in
  let doy := ((153 * (if 2 <? m then m - 3 else m + 9) + 2) / 5 + d - 1)%Z in
  let doe := (yoe * 365 + yoe / 4 - yoe / 100 + doy)%Z in
  (era * 146097 + doe - 719468)%Z.

Definition field (s : string) (start len : nat) : option Z :=
  Z.of_nat <$> natOfDigits 0 (substring start len s).

(** Dates of the form [YYYY/MM/DD HH:MM:SS], read as UTC. *)
Definition parseSlashDate (s : string) : option Z :=
  if negb (String.eqb (substring 4 1 s) "/" && String.eqb (substring 7 1 s) "/"
           && String.eqb (substring 10 1 s) " "
           && String.eqb (substring 13 1 s) ":"
           && String.eqb (substring 16 1 s) ":"
           && (String.length s =? 19)%nat)
  then None
  else
    y ← field s 0 4; m ← field s 5 2; d ← field s 8 2;
    h ← field s 11 2; mi ← field s 14 2; sec ← field s 17 2;
    if ((1 <=? m) && (m <=? 12) && (1 <=? d) && (d <=? 31)
        && (h <? 24) && (mi <? 60) && (sec <? 60))%Z
    then Some ((((daysFromCivil y m d * 24 + h) * 60 + mi) * 60 + sec) * 1000)%Z
    else None.

Fixpoint allDigits (s : string) : bool :=
  match s with
  | "" => true
  | String c s' => isDigit c && allDigits s'
  end.

(** Decimal numerals with an optional minus sign and fraction; the
    empty string converts to [0], anything else to [NaN]. *)
Definition decimalGe0 (s : string) : bool :=
  match s with
  | "" => true
  | String "-" _ => false
  | _ =>
      match index 0 "." s with
      | Some i =>
          allDigits (substring 0 i s) &&
          allDigits (substring (S i) (String.length s) s) &&
          (1 <? String.length s)%nat
      | None => allDigits s
      end
  end.

(** The functions every object inherits from [Object.prototype]. *)
Definition objectPrototypeFunctions : list string :=
  ["constructor"; "hasOwnProperty"; "isPrototypeOf"; "propertyIsEnumerable";
   "toLocaleString"; "toString"; "valueOf"; "__defineGetter__";
   "__defineSetter__"; "__lookupGetter__"; "__lookupSetter__"].

(** The text of a built-in function; [constructor] is the function
    [Object], and [__proto__] reads [Object.prototype] itself. *)
Definition prototypeText (k : string) : option string :=
  if String.eqb k "__proto__" then Some "[object Object]"
  else if existsb (String.eqb k) objectPrototypeFunctions
  then Some ("function " +:+
             (if String.eqb k "constructor" then "Object" else k) +:+
             "() { [native code] }")
  else None.

(** The sample data holds plain numbers only; the reference host prints
    any other number as its decimal. *)
#[export] Instance host : Host :=
  {| dateParse := parseSlashDate; stringGe0 := decimalGe0;
     numberText := plainText; objectPrototypeText := prototypeText |}.

Definition num (m : Z) (sc : nat) : JsVal := JNum {| mant := m; scale := sc |}.

Definition obj (l : list (string * JsVal)) : JsVal := JObj (list_to_map l).

Definition stock (name symbol : string) (price change : JsVal) : JsVal :=
  obj [("name", JStr name); ("symbol", JStr symbol); ("price", price);
       ("period_change", change)].

Definition gainers : list JsVal :=
  [ stock "AT&T <b>" "600001" (num 1234 2) (num 312 1);
    stock "Beta" "600002" (num 8 0) (num 25 0);
    stock "Gamma" "600003" (num 45 1) (num 199 1);
    stock "Delta" "600004" (num 7 0) (num 101 1) ].

Definition fiveDay : JsVal :=
  obj [("gainers", JArr gainers);
       ("losers", JArr [stock "Omega" "000001" (num 3 0) (num (-155) 1)]);
       ("statistics", obj [("sample_size", num 4800 0);
                           ("avg_change", num (-3) 1);
                           ("up_ratio", num 452 1)])].

Definition snapshot : JsVal :=
  obj [("update_time", JStr "2024-05-06 15:30:00");
       ("market_overview",
        obj [("total_stocks", num 5000 0); ("up_stocks", num 3000 0);
             ("down_stocks", num 1900 0); ("limit_up", num 40 0);
             ("limit_down", num 3 0); ("avg_change", num 15 1);
             ("total_amount", num 81235 1)]);
       ("periods", obj [("5d", fiveDay)])].

Definition page : World :=
  initialWorld
    (list_to_map [("updateTime", TextContent "");
                  ("marketOverview", InnerHTML "");
                  ("gainersList", InnerHTML "");
                  ("losersList", InnerHTML "");
                  ("statisticsContent", InnerHTML "");
                  ("gainersPeriod", TextContent "");
                  ("losersPeriod", TextContent "")])
    [ {| period := Some "5d"; active := true |};
      {| period := Some "10d"; active := false |};
      {| period := Some "20d"; active := false |} ]
    (Some false).

(** 2024-05-06 15:30:00 UTC, in milliseconds. *)
Definition updatedAt : Z := 1715009400000.

(** The page after the script started and the snapshot arrived. *)
Definition loaded : World :=
  dispatch (FetchSettled 0 (HttpResponse true 200 (Some snapshot)))
    (dispatch (DOMContentLoaded updatedAt) page).

End Sample.

(** ** Notions used in the statements *)

(** A [loadData()] call fails when the request is rejected, when the
    response is not [ok], or when its body is not valid JSON. *)
Definition loadFailed (r : Response) : bool :=
  match r with
  | NetworkError => true
  | HttpResponse ok _ None => true
  | HttpResponse ok _ (Some _) => negb ok
  end.

(** [writesOnly ids c]: whether it completes or throws, [c] changes
    nothing but the content of the elements [ids]: the snapshot, the
    period, the tab buttons, the requests issued and awaited all stay. *)
Definition writesOnly {A} (ids : list string) (c : M A) : Prop :=
  forall w, exists e,
    snd (c w) = setElements e w /\
    forall id, id ∉ ids -> e !! id = elements w !! id.




(** Whether the character [c] occurs in [s]. *)
Fixpoint occurs (c : ascii) (s : string) : bool :=
  match s with
  | "" => false
  | String c' s' => Ascii.eqb c c' || occurs c s'
  end.

(** The text holds a no-break space, U+00A0: the bytes 194 160. *)
Fixpoint hasNbsp (s : string) : bool :=
  match s with
  | "" => false
  | String c s' =>
      match s' with
      | String c' _ =>
          (Ascii.eqb c "194" && Ascii.eqb c' "160") || hasNbsp s'
      | "" => false
      end
  end.

(** How markup text is read back: the four character references that
    [escapeText] writes stand for their characters, every other
    character for itself. *)
Fixpoint unescapeText (s : string) : string :=
  match s with
  | "" => ""
  | String "&" (String "a" (String "m" (String "p" (String ";" s')))) =>
      String "&" (unescapeText s')
  | String "&" (String "l" (String "t" (String ";" s'))) =>
      String "<" (unescapeText s')
  | String "&" (String "g" (String "t" (String ";" s'))) =>
      String ">" (unescapeText s')
  | String "&" (String "n" (String "b" (String "s" (String "p"
      (String ";" s'))))) =>
      String "194" (String "160" (unescapeText s'))
  | String c s' => String c (unescapeText s')
  end.

(** The elements a tab click may write: the two ranking lists, the
    statistics panel and the two period badges. *)
Definition tabRegions : list string :=
  ["gainersList"; "losersList"; "statisticsContent";
   "gainersPeriod"; "losersPeriod"].

(** The page once the tab button [i], with period [p], has been marked
    active and made current, before anything is rendered again. *)
Definition selectTab (i : nat) (p : option string) (w : World) : World :=
  setCurrentPeriod p
    (setTabs (imap (fun j b => {| period := period b;
                                  active := bool_decide (j = i) |}) (tabs w)) w).

(** The events whose listener may start a [loadData()]. *)
Definition mayLoad (e : Event) : bool :=
  match e with
  | DOMContentLoaded _ | VisibilityChange _ _ => true
  | _ => false
  end.

(** A computation that passes nothing to [fetch]. *)
Definition keepsRequests {A} (c : M A) : Prop :=
  forall w, requests (snd (c w)) = requests w.


(** Two pages that differ at most in what the elements [ids] hold: every
    other part of the state is the same, and the same elements exist. *)
Definition samePage (ids : list string) (w1 w2 : World) : Prop :=
  w2 = setElements (elements w2) w1 /\
  (forall id, is_Some (elements w1 !! id) <-> is_Some (elements w2 !! id)) /\
  (forall id, id ∉ ids -> elements w1 !! id = elements w2 !! id).

(** [overwrites before after c]: run on two pages that differ at most at
    [before], [c] ends the same way on both (same result or both thrown)
    and, when it completes, leaves pages that differ at most at [after];
    when it throws, at most at [before]. *)
Definition overwrites {A} (before after : list string) (c : M A) : Prop :=
  forall w1 w2, samePage before w1 w2 ->
    fst (c w1) = fst (c w2) /\
    samePage (match fst (c w1) with Normal _ => after | Thrown => before end)
      (snd (c w1)) (snd (c w2)).

(** The page after a sequence of events, dispatched in order. *)
Definition run `{Host} (es : list Event) (w : World) : World :=
  foldl (fun w e => dispatch e w) w es.

(** [keepsElements present c]: on a page that has the elements
    [present], [c] changes at most what elements hold, and adds or
    removes none. *)
Definition keepsElements {A} (present : list string) (c : M A) : Prop :=
  forall w,
    (forall id, id ∈ present -> is_Some (elements w !! id)) ->
    exists e,
      snd (c w) = setElements e w /\
      forall id, is_Some (e !! id) <-> is_Some (elements w !! id).

(** What no listener changes: which elements, tab buttons and
    back-to-top button the page has, and the requests already issued;
    every load that is awaited has its request, and the analyzer, once
    created, stays. *)
Definition Step (w w' : World) : Prop :=
  (forall id, is_Some (elements w' !! id) <-> is_Some (elements w !! id)) /\
  period <$> tabs w' = period <$> tabs w /\
  (is_Some (backToTop w') <-> is_Some (backToTop w)) /\
  (exists new,
     requests w' = (new ++ requests w)%list /\
     (length (pending w') <= length (pending w) + length new)%nat) /\
  (created w = true -> created w' = true).

Definition steps {A} (c : M A) : Prop := forall w, Step w (snd (c w)).

(** Every element [render] may write. *)
Definition renderRegions : list string :=
  ["updateTime"; "marketOverview"; "gainersList"; "losersList";
   "statisticsContent"; "gainersPeriod"; "losersPeriod"].

Definition isStart (e : Event) : bool :=
  match e with
  | DOMContentLoaded _ => true
  | _ => false
  end.

(** What holds of the analyzer on every page the events can lead to:
    listeners are bound only once it exists, the rest of [init] is only
    awaited once it exists, the back-to-top listeners only after the tab
    listeners and only for a button the page has, and its period is
    [5d] or the period of a tab button. *)
Definition Inv (w : World) : Prop :=
  (tabsBound w = true -> created w = true) /\
  (AfterInit ∈ pending w -> created w = true) /\
  (backToTopBound w = true -> tabsBound w = true /\ is_Some (backToTop w)) /\
  (created w = true ->
   currentPeriod w = Some "5d" \/ currentPeriod w ∈ period <$> tabs w) /\
  (created w = false -> currentPeriod w = None).

(** * Properties *)

(** ** Evaluation on the sample page *)

Section Evaluation.
Import Sample.

Example numToString_1_5 : numToString {| mant := 15; scale := 1 |} = "1.5".
Proof. reflexivity. Qed.
Example numToString_m0_3 : numToString {| mant := -3; scale := 1 |} = "-0.3".
Proof. reflexivity. Qed.
Example numToString_0_05 : numToString {| mant := 50; scale := 3 |} = "0.05".
Proof. reflexivity. Qed.
Example plainNum_1e_6 : plainNum {| mant := 1; scale := 6 |} = true.
Proof. reflexivity. Qed.
Example plainNum_1e_7 : plainNum {| mant := 1; scale := 7 |} = false.
Proof. reflexivity. Qed.
Example plainNum_1e21 : plainNum {| mant := 10 ^ 21; scale := 0 |} = false.
Proof. reflexivity. Qed.
Example plainNum_16_digits :
  plainNum {| mant := 1234567890123456; scale := 3 |} = false.
Proof. reflexivity. Qed.
Example plainNum_trailing_zeros :
  plainNum {| mant := 15000000000000000000; scale := 19 |} = true.
Proof. reflexivity. Qed.
Example underflow_is_zero :
  let tiny := {| mant := -1; scale := 400 |} in
  numGe0 tiny = true /\ truthy (JNum tiny) = false.
Proof. split; vm_compute; reflexivity. Qed.
Example small_negative_is_negative :
  numGe0 {| mant := -1; scale := 300 |} = false.
Proof. vm_compute; reflexivity. Qed.
Example label_of_inherited_member :
  getPeriodLabel (Some "toString")
  = Some "function toString() { [native code] }".
Proof. reflexivity. Qed.
Example toStr_arr :
toStr (JArr [JNum (numOfNat 1); JNull; JStr "a"]) = Some "1,,a".
Proof. reflexivity. Qed.

Example escapeHtml_script :
escapeHtml (JStr "<script>alert(1)</script>")
= Some "&lt;script&gt;alert(1)&lt;/script&gt;".
Proof. reflexivity. Qed.

Example sample_date :
  dateParse (replaceDashes "2024-05-06 15:30:00") = Some updatedAt.
Proof. reflexivity. Qed.

Example sample_loaded_data : data loaded = snapshot.
Proof. reflexivity. Qed.

Example avg_change_up :
  avgChangeItem "平均涨跌" (num 15 1)
  = Some {| label := "平均涨跌"; value := JStr "+1.5%"; class := "up" |}.
Proof. reflexivity. Qed.

Example avg_change_down :
  avgChangeItem "平均涨跌" (num (-3) 1)
  = Some {| label := "平均涨跌"; value := JStr "-0.3%"; class := "down" |}.
Proof. reflexivity. Qed.

Example sample_three_gainers :
  renderRankingList (JArr (take 3 gainers)) "gainer"
  = Some (rankingItemView "top1" "1" "AT&amp;T &lt;b&gt;" "600001" "12.34"
            "+31.2" +:+
          rankingItemView "top2" "2" "Beta" "600002" "8" "+25" +:+
          rankingItemView "top3" "3" "Gamma" "600003" "4.5" "+19.9").
Proof. vm_compute. reflexivity. Qed.

Example sample_losers :
  elements loaded !! "losersList"
  = Some (InnerHTML (rankingItemView "top1" "1" "Omega" "000001" "3" "-15.5")).
Proof. vm_compute. reflexivity. Qed.

(** The 20-day tab of a snapshot without a 20-day period. *)
Example sample_tab_20d :
  let w := dispatch (TabClick 2) loaded in
  elements w !! "gainersList" = Some (InnerHTML emptyListView) /\
  elements w !! "losersList" = Some (InnerHTML emptyListView) /\
  elements w !! "statisticsContent" = Some (InnerHTML emptyStatisticsView) /\
  elements w !! "gainersPeriod" = Some (TextContent "20日") /\
  elements w !! "marketOverview" = elements loaded !! "marketOverview" /\
  requests w = requests loaded.
Proof. vm_compute. repeat split; reflexivity. Qed.

(** Exactly one hour after the update time nothing is reloaded; one
    millisecond later a request is issued. *)
Example sample_not_stale :
  dispatch (VisibilityChange true (updatedAt + 3600000)) loaded = loaded.
Proof. vm_compute. reflexivity. Qed.

Example sample_stale :
  requests (dispatch (VisibilityChange true (updatedAt + 3600001)) loaded)
  = ["data/latest.json?t=1715013000001"; "data/latest.json?t=1715009400000"].
Proof. vm_compute. reflexivity. Qed.

(** A failed reload shows the error view, and the [render()] that was
    awaiting it then draws the stored snapshot over it again. *)
Example sample_failed_reload :
  let w := dispatch (VisibilityChange true (updatedAt + 3600001)) loaded in
  elements (exec (loadDataSettle NetworkError) w) !! "gainersList"
  = Some (InnerHTML (errorView loadFailedMessage)) /\
  elements (dispatch (FetchSettled 0 NetworkError) w) !! "gainersList"
  = elements loaded !! "gainersList".
Proof. vm_compute. split; reflexivity. Qed.

End Evaluation.

(** ** Which part of the page a computation writes *)

Lemma setElements_same w : setElements (elements w) w = w.
Proof. by destruct w. Qed.

Lemma writesOnly_pure {A} ids (c : M A) :
  (forall w, snd (c w) = w) -> writesOnly ids c.
Proof.
  intros Hc w. exists (elements w). rewrite Hc, setElements_same. done.
Qed.

Lemma writesOnly_ret {A} ids (a : A) : writesOnly ids (mret a).
Proof. by apply writesOnly_pure. Qed.

Lemma writesOnly_gets {A} ids (f : World -> A) : writesOnly ids (gets f).
Proof. by apply writesOnly_pure. Qed.

Lemma writesOnly_lift {A} ids (o : option A) : writesOnly ids (lift o).
Proof. apply writesOnly_pure. intros w. by destruct o. Qed.

Lemma writesOnly_bind {A B} ids (c : M A) (f : A -> M B) :
  writesOnly ids c -> (forall a, writesOnly ids (f a)) ->
  writesOnly ids (c ≫= f).
Proof.
  intros Hc Hf w. unfold mbind, M_bind.
  destruct (Hc w) as (e & He & Hframe).
  destruct (c w) as [[a|] w1]; simpl in He; subst w1.
  - destruct (Hf a (setElements e w)) as (e' & He' & Hframe').
    exists e'. rewrite He'. split; [done|].
    intros id Hid. rewrite Hframe' by done. by apply Hframe.
  - by exists e.
Qed.

Lemma writesOnly_whenElement ids id (body : M unit) :
  writesOnly ids body -> writesOnly ids (whenElement id body).
Proof.
  intros Hb w. unfold whenElement.
  destruct (elements w !! id); [apply Hb|].
  exists (elements w). by rewrite setElements_same.
Qed.

Lemma writesOnly_setInnerHTML ids id html :
  id ∈ ids -> writesOnly ids (setInnerHTML id html).
Proof.
  intros Hin w. eexists. split; [reflexivity|].
  intros id' Hid'. apply lookup_insert_ne. by intros ->.
Qed.

Lemma writesOnly_setTextContent ids id text :
  id ∈ ids -> writesOnly ids (setTextContent id text).
Proof.
  intros Hin w. eexists. split; [reflexivity|].
  intros id' Hid'. apply lookup_insert_ne. by intros ->.
Qed.

Lemma writesOnly_mono {A} ids ids' (c : M A) :
  ids ⊆ ids' -> writesOnly ids c -> writesOnly ids' c.
Proof.
  intros Hsub Hc w. destruct (Hc w) as (e & He & Hframe).
  exists e. split; [done|]. intros id Hid. apply Hframe.
  intros Hin. by apply Hid, Hsub.
Qed.

Lemma writesOnly_forEach {A} ids (l : list A) (f : A -> M unit) :
  (forall x, x ∈ l -> writesOnly ids (f x)) -> writesOnly ids (forEach l f).
Proof.
  induction l as [|x l IH]; intros Hf; simpl.
  - apply writesOnly_ret.
  - apply writesOnly_bind; [apply Hf; left | intros _; apply IH].
    intros y Hy. apply Hf. by right.
Qed.

(** Breaks a computation into its steps and frames each of them. *)
Ltac frame_steps :=
  repeat first
    [ apply writesOnly_ret | apply writesOnly_gets | apply writesOnly_lift
    | apply writesOnly_whenElement
    | apply writesOnly_setInnerHTML; set_solver
    | apply writesOnly_setTextContent; set_solver
    | apply writesOnly_forEach; intros ? ?
    | apply writesOnly_bind; [| intros ?]
    | match goal with
      | |- writesOnly _ (if ?b then _ else _) => destruct b
      | |- writesOnly _ (match ?o with _ => _ end) => destruct o
      end ].

Lemma showError_writesOnly message : writesOnly containers (showError message).
Proof. unfold showError, containers. frame_steps. Qed.

(** ** The loader *)

Lemma forEach_cons {A} (x : A) (l : list A) (f : A -> M unit) (w : World) :
  forEach (x :: l) f w
  = match f x w with
    | (Normal _, w') => forEach l f w'
    | (Thrown, w') => (Thrown, w')
    end.
Proof. reflexivity. Qed.

Lemma whenElement_Some id (body : M unit) w c :
  elements w !! id = Some c -> whenElement id body w = body w.
Proof. intros Hc. unfold whenElement. by rewrite Hc. Qed.

Lemma whenElement_None id (body : M unit) w :
  elements w !! id = None -> whenElement id body w = (Normal tt, w).
Proof. intros Hc. unfold whenElement. by rewrite Hc. Qed.

Lemma setInnerHTML_run id html w :
  setInnerHTML id html w
  = (Normal tt, setElements (<[id := InnerHTML html]> (elements w)) w).
Proof. reflexivity. Qed.

(** Filling a list of regions with one view: every region that exists
    receives the view, nothing else changes, nothing is thrown. *)
Lemma fill_run (ids : list string) (html : string) (w : World) :
  exists e,
    forEach ids (fun id => whenElement id (setInnerHTML id html)) w
    = (Normal tt, setElements e w) /\
    (forall id, id ∈ ids ->
       e !! id = (fun _ => InnerHTML html) <$> elements w !! id) /\
    (forall id, id ∉ ids -> e !! id = elements w !! id).
Proof.
  revert w. induction ids as [|x ids IH]; intros w.
  - exists (elements w). simpl. unfold mret, M_ret.
    rewrite setElements_same. split; [done|]. split; [|done].
    intros id Hid. by apply not_elem_of_nil in Hid.
  - rewrite forEach_cons.
    destruct (elements w !! x) as [old|] eqn:Hx.
    + rewrite (whenElement_Some _ _ _ _ Hx), setInnerHTML_run.
      destruct (IH (setElements (<[x:=InnerHTML html]> (elements w)) w))
        as (e & Hrun & Hin & Hout).
      exists e. rewrite Hrun. split; [done|]. split.
      * intros id Hid. destruct (decide (id ∈ ids)) as [Hl|Hl].
        -- rewrite Hin by done. simpl.
           destruct (decide (x = id)) as [->|Hne].
           ++ by rewrite lookup_insert_eq, Hx.
           ++ by rewrite lookup_insert_ne.
        -- rewrite Hout by done. apply elem_of_cons in Hid as [->|Hid]; [|done].
           simpl. by rewrite lookup_insert_eq, Hx.
      * intros id Hid. apply not_elem_of_cons in Hid as [Hne Hl].
        rewrite Hout by done. simpl. by rewrite lookup_insert_ne.
    + rewrite (whenElement_None _ _ _ Hx).
      destruct (IH w) as (e & Hrun & Hin & Hout).
      exists e. rewrite Hrun. split; [done|]. split.
      * intros id Hid. destruct (decide (id ∈ ids)) as [Hl|Hl].
        -- by apply Hin.
        -- apply elem_of_cons in Hid as [->|Hid]; [|done].
           rewrite Hout by done. by rewrite Hx.
      * intros id Hid. apply not_elem_of_cons in Hid as [Hne Hl]. by apply Hout.
Qed.




(** ** Numbers and markup text *)

(** An array length is zero only for the empty array. *)
Lemma numIsZero_numOfNat k :
  numIsZero (numOfNat k) = bool_decide (k = 0%nat).
Proof.
  unfold numIsZero, underflows, numOfNat. cbn [mant scale].
  change (10 ^ Z.of_nat 0)%Z with 1%Z.
  assert (1 < 2 ^ 1075)%Z as Hp by (apply Z.pow_gt_1; lia).
  generalize dependent (2 ^ 1075)%Z. intros P HP.
  case_bool_decide as Hk.
  - subst. apply Z.leb_le. lia.
  - apply Z.leb_gt. nia.
Qed.

Lemma numGe0_nonneg n : (0 <= mant n)%Z -> numGe0 n = true.
Proof.
  intros Hn. unfold numGe0. apply orb_true_iff. left. by apply Z.leb_le.
Qed.





(** ** The ranking lists *)










(** ** Escaping of the stock name *)

Lemma string_pair_ind (P : string -> Prop) :
  P "" ->
  (forall c, P (String c "")) ->
  (forall c c' s, P s -> P (String c' s) -> P (String c (String c' s))) ->
  forall s, P s.
Proof.
  intros Hnil Hone Hstep.
  assert (forall s, P s /\ forall c, P (String c s)) as Hboth.
  { induction s as [|c' s [IH1 IH2]].
    - split; [done|]. apply Hone.
    - split; [apply IH2|]. intros c. apply Hstep; [done|apply IH2]. }
  intros s. apply Hboth.
Qed.

Lemma unescapeText_other c s :
  c <> "&"%char -> unescapeText (String c s) = String c (unescapeText s).
Proof.
  intros Hc.
  destruct c as [[] [] [] [] [] [] [] []]; try reflexivity. done.
Qed.

Lemma escapeText_cons c s :
  escapeText (String c s)
  = if Ascii.eqb c "&" then "&amp;" +:+ escapeText s
    else if Ascii.eqb c "<" then "&lt;" +:+ escapeText s
    else if Ascii.eqb c ">" then "&gt;" +:+ escapeText s
    else match s with
         | String c' s'' =>
             if Ascii.eqb c "194" && Ascii.eqb c' "160"
             then "&nbsp;" +:+ escapeText s''
             else String c (escapeText s)
         | "" => String c ""
         end.
Proof. destruct s; reflexivity. Qed.

Lemma unescapeText_escapeText s : unescapeText (escapeText s) = s.
Proof.
  induction s as [|c|c c' s IH1 IH2] using string_pair_ind.
  - reflexivity.
  - rewrite escapeText_cons.
    destruct (Ascii.eqb_spec c "&") as [->|Hamp]; [reflexivity|].
    destruct (Ascii.eqb_spec c "<") as [->|Hlt]; [reflexivity|].
    destruct (Ascii.eqb_spec c ">") as [->|Hgt]; [reflexivity|].
    by rewrite unescapeText_other.
  - rewrite escapeText_cons.
    destruct (Ascii.eqb_spec c "&") as [->|Hamp].
    { change (unescapeText ("&amp;" +:+ ?r)) with (String "&" (unescapeText r)).
      by rewrite IH2. }
    destruct (Ascii.eqb_spec c "<") as [->|Hlt].
    { change (unescapeText ("&lt;" +:+ ?r)) with (String "<" (unescapeText r)).
      by rewrite IH2. }
    destruct (Ascii.eqb_spec c ">") as [->|Hgt].
    { change (unescapeText ("&gt;" +:+ ?r)) with (String ">" (unescapeText r)).
      by rewrite IH2. }
    destruct (Ascii.eqb_spec c "194") as [->|H194];
      [destruct (Ascii.eqb_spec c' "160") as [->|H160]|]; simpl andb; cbv iota.
    + change (unescapeText ("&nbsp;" +:+ ?r))
        with (String "194" (String "160" (unescapeText r))).
      by rewrite IH1.
    + rewrite unescapeText_other by done. by rewrite IH2.
    + rewrite unescapeText_other by done. by rewrite IH2.
Qed.

Lemma occurs_escapeText c s :
  c = "<"%char \/ c = ">"%char -> occurs c (escapeText s) = false.
Proof.
  intros Hc.
  induction s as [|c0|c0 c' s IH1 IH2] using string_pair_ind.
  - reflexivity.
  - rewrite escapeText_cons.
    destruct (Ascii.eqb_spec c0 "&") as [->|Hamp]; [by destruct Hc as [-> | ->]|].
    destruct (Ascii.eqb_spec c0 "<") as [->|Hlt]; [by destruct Hc as [-> | ->]|].
    destruct (Ascii.eqb_spec c0 ">") as [->|Hgt]; [by destruct Hc as [-> | ->]|].
    simpl. rewrite orb_false_r. apply Ascii.eqb_neq. by destruct Hc as [-> | ->].
  - rewrite escapeText_cons.
    destruct (Ascii.eqb_spec c0 "&") as [->|Hamp].
    { destruct Hc as [-> | ->]; simpl; apply IH2. }
    destruct (Ascii.eqb_spec c0 "<") as [->|Hlt].
    { destruct Hc as [-> | ->]; simpl; apply IH2. }
    destruct (Ascii.eqb_spec c0 ">") as [->|Hgt].
    { destruct Hc as [-> | ->]; simpl; apply IH2. }
    assert (Ascii.eqb c c0 = false) as Hne.
    { apply Ascii.eqb_neq. by destruct Hc as [-> | ->]. }
    destruct (Ascii.eqb c0 "194" && Ascii.eqb c' "160").
    + destruct Hc as [-> | ->]; simpl; apply IH1.
    + cbn [occurs]. by rewrite Hne, IH2.
Qed.

(** C3.  In every row that [renderRankingList] produces, the name slot
    holds [escapeHtml(stock.name)]: the text of the name with no [<] and
    no [>] left in it, which reads back as exactly that text, so a name
    such as [<script>] shows as inert text.  The symbol, the price and
    the change of the row are the plain string conversions of their
    fields: [escapeHtml] is applied to the name only. *)
Theorem rankingItem_escapes_name `{Host} (type : string) (stock : JsVal)
    (index : nat) (row : string) :
  rankingItem type stock index = Some row ->
  exists name symbol price change,
    getProp stock "name" ≫= textOf = Some name /\
    getProp stock "name" ≫= escapeHtml = Some (escapeText name) /\
    occurs "<" (escapeText name) = false /\
    occurs ">" (escapeText name) = false /\
    unescapeText (escapeText name) = name /\
    getProp stock "symbol" ≫= toStr = Some symbol /\
    getProp stock "price" ≫= toStr = Some price /\
    getProp stock "period_change" ≫= toStr = Some change /\
    row = rankingItemView (rankClass index) (pretty (index + 1)%nat)
            (escapeText name) symbol price (changePrefix type +:+ change).
Proof.
  unfold rankingItem. intros Hrow.
  apply bind_Some in Hrow as (escaped & Hname & Hrow).
  apply bind_Some in Hrow as (symbol & Hsymbol & Hrow).
  apply bind_Some in Hrow as (price & Hprice & Hrow).
  apply bind_Some in Hrow as (change & Hchange & Hrow).
  injection Hrow as <-.
  pose proof Hname as Hname'.
  apply bind_Some in Hname' as (v & Hv & Hesc).
  unfold escapeHtml in Hesc. apply fmap_Some in Hesc as (name & Htext & ->).
  exists name, symbol, price, change.
  split; [by rewrite Hv|]. split; [done|].
  split; [apply occurs_escapeText; by left|].
  split; [apply occurs_escapeText; by right|].
  split; [apply unescapeText_escapeText|]. done.
Qed.

Lemma rankingItem_escapes_name_witness :
  (@rankingItem Sample.host) "gainer" (Sample.stock "<script>x</script>" "600001"
                          (Sample.num 5 0) (Sample.num 1 0)) 0
  = Some (rankingItemView "top1" "1" "&lt;script&gt;x&lt;/script&gt;"
            "600001" "5" "+1") /\
  exists name,
    occurs "<" (escapeText name) = false /\
    unescapeText (escapeText name) = name.
Proof.
  split; [vm_compute; reflexivity|].
  destruct (@rankingItem_escapes_name Sample.host "gainer"
              (Sample.stock "<script>x</script>" "600001"
                 (Sample.num 5 0) (Sample.num 1 0)) 0 _ eq_refl)
    as (name & symbol & price & change & _ & _ & Hlt & _ & Hback & _).
  exists name. split; [exact Hlt | exact Hback].
Defined.

(** ** A period that the snapshot lacks *)

Lemma getProp_getPropOpt v k :
  nullish v = false -> getProp v k = Some (getPropOpt v k).
Proof.
  unfold getPropOpt. destruct v; try done; simpl; intros _;
    by repeat case_match.
Qed.

Lemma truthy_not_nullish v : truthy v = true -> nullish v = false.
Proof. by destruct v. Qed.

(** Writing a view into a region that may be missing. *)
Lemma whenElement_setInnerHTML_run id html w :
  whenElement id (setInnerHTML id html) w
  = (Normal tt,
     setElements (alter (fun _ => InnerHTML html) id (elements w)) w).
Proof.
  unfold whenElement. destruct (elements w !! id) as [c|] eqn:Hid.
  - rewrite setInnerHTML_run. do 2 f_equal. apply map_eq. intros j.
    rewrite lookup_alter, lookup_insert. case_decide; [by rewrite Hid|done].
  - f_equal. rewrite <- (setElements_same w) at 1. f_equal.
    apply map_eq. intros j. rewrite lookup_alter.
    case_decide; [subst; by rewrite Hid|done].
Qed.

Lemma bind_run {A B} (c : M A) (f : A -> M B) w a w' :
  c w = (Normal a, w') -> (c ≫= f) w = f a w'.
Proof. intros Hc. unfold mbind, M_bind. by rewrite Hc. Qed.

Lemma renderRankings_absent `{Host} w :
  nullish (data w) = false ->
  getPropOpt (getPropOpt (data w) "periods") (periodKey (currentPeriod w))
  = JUndefined ->
  renderRankings w
  = (Normal tt,
     setElements
       (alter (fun _ => InnerHTML emptyListView) "losersList"
          (alter (fun _ => InnerHTML emptyListView) "gainersList"
             (elements w))) w).
Proof.
  intros Hdata Habsent. unfold renderRankings.
  rewrite (bind_run _ _ w (data w) w) by done.
  rewrite (bind_run _ _ w (currentPeriod w) w) by done.
  rewrite (bind_run _ _ w (getPropOpt (data w) "periods") w)
    by (by rewrite (getProp_getPropOpt _ _ Hdata)).
  cbv beta.
  destruct (truthy (getPropOpt (data w) "periods")) eqn:Hperiods.
  - rewrite (bind_run _ _ w JUndefined w).
    2:{ rewrite getProp_getPropOpt by by apply truthy_not_nullish.
        by rewrite Habsent. }
    cbn [negb orb truthy]. cbv beta iota.
    erewrite bind_run by apply whenElement_setInnerHTML_run.
    by rewrite whenElement_setInnerHTML_run.
  - rewrite (bind_run _ _ w JUndefined w) by done.
    cbn [negb orb truthy]. cbv beta iota.
    erewrite bind_run by apply whenElement_setInnerHTML_run.
    by rewrite whenElement_setInnerHTML_run.
Qed.

Lemma renderStatistics_absent `{Host} w :
  nullish (data w) = false ->
  getPropOpt (getPropOpt (data w) "periods") (periodKey (currentPeriod w))
  = JUndefined ->
  renderStatistics w
  = (Normal tt,
     setElements
       (alter (fun _ => InnerHTML emptyStatisticsView) "statisticsContent"
          (elements w)) w).
Proof.
  intros Hdata Habsent. rewrite <- whenElement_setInnerHTML_run.
  unfold renderStatistics, whenElement.
  destruct (elements w !! "statisticsContent"); [|done].
  rewrite (bind_run _ _ w (data w) w) by done.
  rewrite (bind_run _ _ w (currentPeriod w) w) by done.
  rewrite (bind_run _ _ w (getPropOpt (data w) "periods") w)
    by (by rewrite (getProp_getPropOpt _ _ Hdata)).
  cbv beta zeta. by rewrite Habsent.
Qed.

(** C4.  When a snapshot is held and [periods[currentPeriod]] is absent
    (no such entry, or no [periods] at all), [renderRankings] and
    [renderStatistics] both complete without throwing; the first puts
    the "no data" placeholder into the gainers and the losers region,
    the second puts its empty-state message into the statistics region
    (each region that the page has), and nothing else changes. *)
Theorem renderRankings_renderStatistics_absent_period `{Host} (w : World) :
  nullish (data w) = false ->
  getPropOpt (getPropOpt (data w) "periods") (periodKey (currentPeriod w))
  = JUndefined ->
  (exists e,
     renderRankings w = (Normal tt, setElements e w) /\
     e !! "gainersList"
     = (fun _ => InnerHTML emptyListView) <$> elements w !! "gainersList" /\
     e !! "losersList"
     = (fun _ => InnerHTML emptyListView) <$> elements w !! "losersList" /\
     forall id, id <> "gainersList" -> id <> "losersList" ->
       e !! id = elements w !! id) /\
  (exists e,
     renderStatistics w = (Normal tt, setElements e w) /\
     e !! "statisticsContent"
     = (fun _ => InnerHTML emptyStatisticsView)
       <$> elements w !! "statisticsContent" /\
     forall id, id <> "statisticsContent" -> e !! id = elements w !! id).
Proof.
  intros Hdata Habsent. split.
  - eexists. split; [by apply renderRankings_absent|].
    split; [|split].
    + rewrite lookup_alter_ne by done. by rewrite lookup_alter_eq.
    + by rewrite lookup_alter_eq, lookup_alter_ne.
    + intros id Hg Hl. by rewrite !lookup_alter_ne.
  - eexists. split; [by apply renderStatistics_absent|]. split.
    + by rewrite lookup_alter_eq.
    + intros id Hid. by rewrite lookup_alter_ne.
Qed.

Lemma renderRankings_renderStatistics_absent_period_witness :
  let w := setCurrentPeriod (Some "20d") Sample.loaded in
  nullish (data w) = false /\
  getPropOpt (getPropOpt (data w) "periods") (periodKey (currentPeriod w))
  = JUndefined /\
  completes (@renderRankings Sample.host) w = true /\
  completes (@renderStatistics Sample.host) w = true.
Proof.
  intros w.
  assert (nullish (data w) = false) as Hdata by (vm_compute; reflexivity).
  assert (getPropOpt (getPropOpt (data w) "periods")
            (periodKey (currentPeriod w)) = JUndefined) as Habsent
    by (vm_compute; reflexivity).
  destruct (@renderRankings_renderStatistics_absent_period Sample.host
              w Hdata Habsent) as ((e & Hr & _) & (e' & Hs & _)).
  split; [exact Hdata|]. split; [exact Habsent|].
  unfold completes. rewrite Hr, Hs. split; reflexivity.
Defined.

(** ** Selecting a tab *)

Lemma renderRankings_writesOnly `{Host} :
  writesOnly ["gainersList"; "losersList"] renderRankings.
Proof. unfold renderRankings. frame_steps. Qed.

Lemma renderStatistics_writesOnly `{Host} :
  writesOnly ["statisticsContent"] renderStatistics.
Proof. unfold renderStatistics. cbv zeta. frame_steps. Qed.

Lemma updatePeriodBadges_writesOnly `{Host} :
  writesOnly ["gainersPeriod"; "losersPeriod"] updatePeriodBadges.
Proof. unfold updatePeriodBadges. cbv zeta. frame_steps. Qed.

(** Inclusion between two explicit lists. *)
Ltac list_incl :=
  let x := fresh "x" in
  intros x; rewrite !elem_of_cons, !elem_of_nil; tauto.

Lemma rerender_writesOnly `{Host} :
  writesOnly tabRegions (renderRankings;; renderStatistics;; updatePeriodBadges).
Proof.
  apply writesOnly_bind; [|intros _; apply writesOnly_bind; [|intros _]].
  - eapply writesOnly_mono; [|apply renderRankings_writesOnly].
    unfold tabRegions. list_incl.
  - eapply writesOnly_mono; [|apply renderStatistics_writesOnly].
    unfold tabRegions. list_incl.
  - eapply writesOnly_mono; [|apply updatePeriodBadges_writesOnly].
    unfold tabRegions. list_incl.
Qed.

(** What the click listener of a tab runs. *)
Lemma tabClick_run `{Host} i w :
  handler (TabClick i) w
  = match tabs w !! i with
    | Some btn =>
        if tabsBound w
        then (renderRankings;; renderStatistics;; updatePeriodBadges)
               (selectTab i (period btn) w)
        else (Normal tt, w)
    | None => (Normal tt, w)
    end.
Proof.
  unfold handler, onTabClick, mbind, M_bind, gets, modify. simpl.
  destruct (tabsBound w); destruct (tabs w !! i); reflexivity.
Qed.

(** C5.  A click on a tab issues no request and awaits none, and leaves
    the stored snapshot as it is; of the elements of the page it can
    only write the two ranking lists, the statistics panel and the two
    period badges, so the market overview (and the update time) keep
    their content.  When the listeners are bound and the button exists,
    the click makes the button's period current and the resulting page
    is the one that [renderRankings], [renderStatistics] and
    [updatePeriodBadges], run in this order, produce for that period. *)
Theorem tab_click_rerenders_without_fetch `{Host} (i : nat) (w : World) :
  let w' := dispatch (TabClick i) w in
  requests w' = requests w /\
  pending w' = pending w /\
  data w' = data w /\
  (forall id, id ∉ tabRegions -> elements w' !! id = elements w !! id) /\
  elements w' !! "marketOverview" = elements w !! "marketOverview" /\
  (forall btn, tabsBound w = true -> tabs w !! i = Some btn ->
     currentPeriod w' = period btn /\
     w' = exec (renderRankings;; renderStatistics;; updatePeriodBadges)
            (selectTab i (period btn) w)).
Proof.
  cbv zeta. unfold dispatch, exec. rewrite tabClick_run.
  assert (forall p,
    let w1 := snd ((renderRankings;; renderStatistics;; updatePeriodBadges)
                     (selectTab i p w)) in
    requests w1 = requests w /\ pending w1 = pending w /\ data w1 = data w /\
    currentPeriod w1 = p /\
    forall id, id ∉ tabRegions -> elements w1 !! id = elements w !! id)
    as Hrerender.
  { intros p. cbv zeta.
    destruct (rerender_writesOnly (selectTab i p w)) as (e & -> & Hframe).
    repeat split; try done. }
  assert ("marketOverview" ∉ tabRegions) as Hmarket.
  { unfold tabRegions. rewrite !elem_of_cons, elem_of_nil.
    intuition discriminate. }
  destruct (tabs w !! i) as [btn|] eqn:Hbtn; [destruct (tabsBound w) eqn:Hbound|].
  - destruct (Hrerender (period btn)) as (Hreq & Hpend & Hdata & Hperiod & Hframe).
    split_and!; try done.
    + by apply Hframe.
    + intros btn' _ [= <-]. done.
  - split_and!; done.
  - split_and!; done.
Qed.

Lemma tab_click_rerenders_without_fetch_witness :
  let w' := @dispatch Sample.host (TabClick 2) Sample.loaded in
  tabsBound Sample.loaded = true /\
  tabs Sample.loaded !! 2%nat = Some {| period := Some "20d"; active := false |} /\
  requests w' = requests Sample.loaded /\
  data w' = data Sample.loaded /\
  currentPeriod w' = Some "20d".
Proof.
  intros w'.
  assert (tabsBound Sample.loaded = true) as Hbound by (vm_compute; reflexivity).
  assert (tabs Sample.loaded !! 2%nat
          = Some {| period := Some "20d"; active := false |}) as Hbtn
    by (vm_compute; reflexivity).
  destruct (@tab_click_rerenders_without_fetch Sample.host 2 Sample.loaded)
    as (Hreq & _ & Hdata & _ & _ & Hsel).
  destruct (Hsel _ Hbound Hbtn) as [Hperiod _].
  split; [exact Hbound|]. split; [exact Hbtn|]. split; [exact Hreq|].
  split; [exact Hdata | exact Hperiod].
Defined.

(** ** The staleness check *)

Lemma truthy_JStr s : s <> "" -> truthy (JStr s) = true.
Proof. intros Hs. simpl. by destruct (String.eqb_spec s ""). Qed.

(** What the [visibilitychange] listener does when the page is visible,
    the analyzer exists and [update_time] is a non-empty string. *)
Lemma visibilityChange_run `{Host} w now s :
  created w = true ->
  getPropOpt (data w) "update_time" = JStr s ->
  s <> "" ->
  handler (VisibilityChange true now) w
  = match dateParse (replaceDashes s) with
    | Some updateTime =>
        if (3600000 <? now - updateTime)%Z
        then (Normal tt,
              setNetwork (fetchUrl now :: requests w)
                (pending w ++ [AfterReload]) w)
        else (Normal tt, w)
    | None => (Normal tt, w)
    end.
Proof.
  intros Hcreated Htime Hs.
  unfold handler, onVisibilityChange, mbind, M_bind, gets. simpl.
  rewrite Hcreated, Htime, (truthy_JStr s Hs). simpl.
  destruct (dateParse (replaceDashes s)) as [t|]; [|done].
  change oneHour with 3600000%Z.
  by destruct (3600000 <? now - t)%Z.
Qed.

(** What runs when the request of a reload settles: the rest of
    [loadData], then [render]. *)
Lemma fetchSettled_reload `{Host} w i r :
  pending w !! i = Some AfterReload ->
  handler (FetchSettled i r) w
  = (loadDataSettle r;; render)
      (setNetwork (requests w) (delete i (pending w)) w).
Proof.
  intros Hi. unfold handler, mbind, M_bind, gets, modify. simpl.
  by rewrite Hi.
Qed.

Lemma cons_neq {A} (x : A) (l : list A) : x :: l <> l.
Proof.
  intros Heq. apply (f_equal length) in Heq. simpl in Heq. lia.
Qed.

(** ** Which events issue a request *)

Lemma keepsRequests_writesOnly {A} ids (c : M A) :
  writesOnly ids c -> keepsRequests c.
Proof. intros Hc w. by destruct (Hc w) as (e & -> & _). Qed.

Lemma keepsRequests_bind {A B} (c : M A) (f : A -> M B) :
  keepsRequests c -> (forall a, keepsRequests (f a)) -> keepsRequests (c ≫= f).
Proof.
  intros Hc Hf w. unfold mbind, M_bind. specialize (Hc w).
  destruct (c w) as [[a|] w1]; simpl in *; [|done].
  by rewrite Hf.
Qed.

Lemma keepsRequests_modify (f : World -> World) :
  (forall w, requests (f w) = requests w) -> keepsRequests (modify f).
Proof. intros Hf w. apply Hf. Qed.

Lemma renderUpdateTime_writesOnly `{Host} : writesOnly ["updateTime"] renderUpdateTime.
Proof. unfold renderUpdateTime. frame_steps. Qed.

Lemma renderMarketOverview_writesOnly `{Host} :
  writesOnly ["marketOverview"] renderMarketOverview.
Proof. unfold renderMarketOverview. frame_steps. Qed.

Lemma render_keepsRequests `{Host} : keepsRequests render.
Proof.
  unfold render. apply keepsRequests_bind; [by intros w|]. intros d.
  destruct (negb (truthy d)).
  - eapply keepsRequests_writesOnly, showError_writesOnly.
  - repeat (apply keepsRequests_bind; [|intros _]).
    + eapply keepsRequests_writesOnly, renderUpdateTime_writesOnly.
    + eapply keepsRequests_writesOnly, renderMarketOverview_writesOnly.
    + eapply keepsRequests_writesOnly, renderRankings_writesOnly.
    + eapply keepsRequests_writesOnly, renderStatistics_writesOnly.
    + eapply keepsRequests_writesOnly, updatePeriodBadges_writesOnly.
Qed.

Lemma loadDataSettle_keepsRequests r : keepsRequests (loadDataSettle r).
Proof.
  destruct r as [|[] status [v|]]; simpl;
    first [ by apply keepsRequests_modify
          | eapply keepsRequests_writesOnly, showError_writesOnly ].
Qed.

Lemma handler_keepsRequests `{Host} e :
  mayLoad e = false -> keepsRequests (handler e).
Proof.
  destruct e as [now|visible now|i r|i|scrollY|]; try done; intros _.
  - cbn [handler]. apply keepsRequests_bind; [by intros w|]. intros ps.
    destruct (ps !! i) as [k|]; [|by intros w].
    apply keepsRequests_bind; [by apply keepsRequests_modify|]. intros _.
    apply keepsRequests_bind; [apply loadDataSettle_keepsRequests|]. intros _.
    destruct k; simpl.
    + apply keepsRequests_bind; [by apply keepsRequests_modify|]. intros _.
      apply keepsRequests_bind; [apply render_keepsRequests|]. intros _.
      unfold initBackToTop.
      apply keepsRequests_bind; [by intros w|]. intros [b|]; by intros w.
    + apply render_keepsRequests.
  - intros w. rewrite tabClick_run.
    destruct (tabs w !! i) as [btn|]; [destruct (tabsBound w)|]; try done.
    by destruct (rerender_writesOnly (selectTab i (period btn) w))
      as (e & -> & _).
  - cbn [handler]. apply keepsRequests_bind; [by intros w|].
    intros [|]; by intros w.
Qed.

(** C6.  When the page becomes visible again, the analyzer exists and a
    non-empty [update_time] string is stored: a request is issued if and
    only if that string, with every [-] replaced by [/], parses to a
    date and the current time exceeds it by more than 3,600,000 ms.  In
    that case [loadData()] is started with [render()] awaiting it, so
    that the response is handled by the rest of [loadData] followed by
    [render]; otherwise the listener changes nothing.  No event other
    than [DOMContentLoaded] and [visibilitychange] issues a request (the
    script sets no timer). *)
Theorem visibility_reload_iff_stale `{Host} (w : World) (now : Z) (s : string) :
  created w = true ->
  getPropOpt (data w) "update_time" = JStr s ->
  s <> "" ->
  let w' := dispatch (VisibilityChange true now) w in
  let stale :=
    exists updateTime,
      dateParse (replaceDashes s) = Some updateTime /\
      (now - updateTime > 3600000)%Z in
  (requests w' = fetchUrl now :: requests w <-> stale) /\
  (stale ->
     w' = setNetwork (fetchUrl now :: requests w) (pending w ++ [AfterReload]) w /\
     forall r,
       handler (FetchSettled (length (pending w)) r) w'
       = (loadDataSettle r;; render) (setNetwork (requests w') (pending w) w')) /\
  (~ stale -> w' = w) /\
  (forall e w0, mayLoad e = false -> requests (dispatch e w0) = requests w0).
Proof.
  intros Hcreated Htime Hs. cbv zeta. unfold dispatch, exec.
  rewrite (visibilityChange_run w now s Hcreated Htime Hs).
  destruct (dateParse (replaceDashes s)) as [t|] eqn:Hparse.
  - destruct (Z.ltb_spec 3600000 (now - t)) as [Hlt|Hge]; cbn [snd].
    + assert (exists updateTime, Some t = Some updateTime /\
                (now - updateTime > 3600000)%Z) as Hstale
        by (exists t; split; [done|lia]).
      split_and!; try done.
      * intros _. split; [done|]. intros r.
        rewrite fetchSettled_reload
          by (cbn [pending setNetwork]; by apply list_lookup_middle).
        cbn [pending requests setNetwork].
        pose proof (delete_middle (pending w) [] AfterReload) as Hdel.
        rewrite app_nil_r in Hdel. by rewrite Hdel.
      * intros e w0 He. by apply handler_keepsRequests.
    + assert (~ exists updateTime, Some t = Some updateTime /\
                (now - updateTime > 3600000)%Z) as Hfresh
        by (intros (t' & [= <-] & Hgt); lia).
      split_and!; try done.
      * split; [|done]. intros Heq. by apply symmetry, cons_neq in Heq.
      * intros e w0 He. by apply handler_keepsRequests.
  - cbn [snd].
    assert (~ exists updateTime, None = Some updateTime /\
              (now - updateTime > 3600000)%Z) as Hfresh
      by (by intros (t' & [=] & _)).
    split_and!; try done.
    + split; [|done]. intros Heq. by apply symmetry, cons_neq in Heq.
    + intros e w0 He. by apply handler_keepsRequests.
Qed.

Lemma visibility_reload_iff_stale_witness :
  let now := (Sample.updatedAt + 3600001)%Z in
  created Sample.loaded = true /\
  getPropOpt (data Sample.loaded) "update_time" = JStr "2024-05-06 15:30:00" /\
  "2024-05-06 15:30:00" <> "" /\
  requests (@dispatch Sample.host (VisibilityChange true now) Sample.loaded)
  = fetchUrl now :: requests Sample.loaded.
Proof.
  intros now.
  assert (created Sample.loaded = true) as Hcreated by (vm_compute; reflexivity).
  assert (getPropOpt (data Sample.loaded) "update_time"
          = JStr "2024-05-06 15:30:00") as Htime by (vm_compute; reflexivity).
  assert ("2024-05-06 15:30:00" <> "") as Hs by discriminate.
  split; [exact Hcreated|]. split; [exact Htime|]. split; [exact Hs|].
  apply (@visibility_reload_iff_stale Sample.host Sample.loaded now
           "2024-05-06 15:30:00" Hcreated Htime Hs).
  exists Sample.updatedAt. split; [vm_compute; reflexivity|].
  unfold now. lia.
Defined.

(** ** Without a stored update time *)

(** C10.  If [update_time] is falsy (no snapshot is stored, the field is
    missing, or it is the empty string), or if the analyzer does not
    exist, the [visibilitychange] listener changes nothing, whatever the
    current time.  Hence it issues a request only when the page is
    visible, the analyzer exists and a truthy [update_time] is
    stored. *)
Theorem visibility_without_update_time `{Host} (w : World) (visible : bool)
    (now : Z) :
  (truthy (getPropOpt (data w) "update_time") = false \/ created w = false ->
   dispatch (VisibilityChange visible now) w = w) /\
  (nullish (data w) = true \/
   getPropOpt (data w) "update_time" = JUndefined \/
   getPropOpt (data w) "update_time" = JStr "" ->
   truthy (getPropOpt (data w) "update_time") = false) /\
  (requests (dispatch (VisibilityChange visible now) w) <> requests w ->
   visible = true /\ created w = true /\
   truthy (getPropOpt (data w) "update_time") = true).
Proof.
  assert (truthy (getPropOpt (data w) "update_time") = false \/
          created w = false \/ visible = false ->
          dispatch (VisibilityChange visible now) w = w) as Hidle.
  { unfold dispatch, exec, handler, onVisibilityChange, mbind, M_bind, gets.
    simpl. intros [Hfalsy|[Hcreated|Hvisible]].
    - destruct (visible && created w); [|done]. by rewrite Hfalsy.
    - by rewrite Hcreated, andb_false_r.
    - by rewrite Hvisible. }
  split_and!.
  - intros [Hfalsy|Hcreated]; apply Hidle; auto.
  - intros [Hnull|[-> | ->]]; try done.
    by destruct (data w).
  - intros Hreq.
    destruct visible; [|exfalso; apply Hreq; rewrite Hidle; auto].
    destruct (created w) eqn:Hcreated;
      [|exfalso; apply Hreq; rewrite Hidle; auto].
    destruct (truthy (getPropOpt (data w) "update_time")) eqn:Htruthy;
      [done|exfalso; apply Hreq; rewrite Hidle; auto].
Qed.

Lemma visibility_without_update_time_witness :
  let w := @dispatch Sample.host (DOMContentLoaded Sample.updatedAt) Sample.page in
  let now := (Sample.updatedAt + 86400000)%Z in
  nullish (data w) = true /\
  created w = true /\
  @dispatch Sample.host (VisibilityChange true now) w = w.
Proof.
  intros w now.
  assert (nullish (data w) = true) as Hnull by (vm_compute; reflexivity).
  split; [exact Hnull|]. split; [vm_compute; reflexivity|].
  destruct (@visibility_without_update_time Sample.host w true now)
    as (Hidle & Hfalsy & _).
  apply Hidle. left. apply Hfalsy. left. exact Hnull.
Defined.

(** ** The two panels, entry by entry *)









(** ** The average change *)



(** ** Zero in the statistics *)



(** ** A missing average change *)

(** C7, at an overview that has no field at all: the six plain entries
    show the placeholder "-", but the "average change" entry shows
    "undefined%" with the class [down]: its value is built by the
    template literal before [item.value ?? '-'] is applied, and is never
    [null] or [undefined]. *)
Theorem overview_missing_avg_change_shows_undefined `{Host} :
  exists items,
    overviewItems (JObj ∅) = Some items /\
    mapM overviewItem items
    = Some [ overviewItemView "股票总数" "neutral" "-";
             overviewItemView "上涨家数" "up" "-";
             overviewItemView "下跌家数" "down" "-";
             overviewItemView "涨停" "up" "-";
             overviewItemView "跌停" "down" "-";
             overviewItemView "平均涨跌" "down" "undefined%";
             overviewItemView "成交额(亿)" "neutral" "-" ].
Proof. eexists. split; reflexivity. Qed.

(** The six plain entries of the overview do show "-" for a field that
    is missing or [null]. *)
Lemma overviewItem_placeholder `{Host} lbl cls v :
  nullish v = true ->
  overviewItem {| label := lbl; value := v; class := cls |}
  = Some (overviewItemView lbl cls "-").
Proof. by destruct v. Qed.

(** * Further properties of the script *)

(** ** Date separators *)

Lemma replaceDashes_length s :
  String.length (replaceDashes s) = String.length s.
Proof. induction s as [|c s IH]; simpl; [done|by rewrite IH]. Qed.

Lemma replaceDashes_no_dash s : occurs "-" (replaceDashes s) = false.
Proof.
  induction s as [|c s IH]; cbn [replaceDashes occurs]; [done|].
  rewrite IH, orb_false_r.
  destruct (Ascii.eqb_spec c "-") as [->|Hc]; [done|].
  apply Ascii.eqb_neq. congruence.
Qed.

Lemma replaceDashes_unchanged s :
  occurs "-" s = false -> replaceDashes s = s.
Proof.
  induction s as [|c s IH]; cbn [replaceDashes occurs]; [done|].
  intros [Hc Hs]%orb_false_iff. rewrite IH by done.
  rewrite Ascii.eqb_sym in Hc. by rewrite Hc.
Qed.

(** X1.  [s.replace(/-/g, '/')] replaces every [-], not only the first:
    the result has the length of [s] and holds no [-]; each of its
    characters is the character of [s] at that place, or [/] where [s]
    has [-]; a string without [-] is returned as it is, so replacing
    twice is the same as replacing once. *)
Theorem replaceDashes_replaces_all (s : string) :
  String.length (replaceDashes s) = String.length s /\
  occurs "-" (replaceDashes s) = false /\
  (forall i c, String.get i s = Some c ->
     String.get i (replaceDashes s)
     = Some (if Ascii.eqb c "-" then "/"%char else c)) /\
  (occurs "-" s = false -> replaceDashes s = s) /\
  replaceDashes (replaceDashes s) = replaceDashes s.
Proof.
  split_and!.
  - apply replaceDashes_length.
  - apply replaceDashes_no_dash.
  - induction s as [|c0 s IH]; intros [|i] c Hc;
      cbn [replaceDashes String.get] in *; try done.
    + by injection Hc as ->.
    + by apply IH.
  - apply replaceDashes_unchanged.
  - apply replaceDashes_unchanged, replaceDashes_no_dash.
Qed.

(** ** Escaping *)

Lemma escapeText_unchanged s :
  occurs "&" s = false -> occurs "<" s = false -> occurs ">" s = false ->
  hasNbsp s = false ->
  escapeText s = s.
Proof.
  induction s as [|c s IH]; [done|].
  cbn [occurs]. intros [Ha Ha']%orb_false_iff [Hl Hl']%orb_false_iff
    [Hg Hg']%orb_false_iff Hn.
  rewrite escapeText_cons.
  rewrite Ascii.eqb_sym in Ha. rewrite Ascii.eqb_sym in Hl.
  rewrite Ascii.eqb_sym in Hg. rewrite Ha, Hl, Hg.
  destruct s as [|c' s]; [done|].
  cbn [hasNbsp] in Hn. apply orb_false_iff in Hn as [Hn Hn'].
  rewrite Hn. by rewrite IH.
Qed.

Lemma length_append s1 s2 :
  String.length (s1 +:+ s2) = (String.length s1 + String.length s2)%nat.
Proof.
  induction s1 as [|c s1 IH]; [done|].
  change (String c s1 +:+ s2) with (String c (s1 +:+ s2)).
  cbn [String.length]. by rewrite IH.
Qed.

Lemma escapeText_length s :
  (String.length s <= String.length (escapeText s))%nat.
Proof.
  induction s as [|c|c c' s IH1 IH2] using string_pair_ind.
  - done.
  - rewrite escapeText_cons.
    repeat case_match; rewrite ?length_append;
      cbn [String.length escapeText]; lia.
  - rewrite escapeText_cons.
    repeat case_match; rewrite ?length_append;
      cbn [String.length] in *; lia.
Qed.

(** X2.  [escapeHtml] on strings: two different texts never get the same
    markup, the markup is never shorter than the text, and a text
    without [&], [<], [>] and without a no-break space is returned
    unchanged, whatever other characters it holds. *)
Theorem escapeHtml_faithful `{Host} :
  (forall s1 s2, escapeHtml (JStr s1) = escapeHtml (JStr s2) -> s1 = s2) /\
  (forall s, exists m,
     escapeHtml (JStr s) = Some m /\
     (String.length s <= String.length m)%nat) /\
  (forall s,
     occurs "&" s = false -> occurs "<" s = false -> occurs ">" s = false ->
     hasNbsp s = false ->
     escapeHtml (JStr s) = Some s).
Proof.
  split_and!.
  - intros s1 s2 [= Heq].
    by rewrite <- (unescapeText_escapeText s1), Heq, unescapeText_escapeText.
  - intros s. eexists. split; [reflexivity|]. apply escapeText_length.
  - intros s Ha Hl Hg Hn. unfold escapeHtml. simpl.
    by rewrite escapeText_unchanged.
Qed.

Lemma escapeHtml_faithful_witness :
  hasNbsp "© 2024 É" = false /\
  @escapeHtml Sample.host (JStr "© 2024 É") = Some "© 2024 É".
Proof.
  split; [vm_compute; reflexivity|].
  apply (proj2 (proj2 (@escapeHtml_faithful Sample.host)));
    vm_compute; reflexivity.
Defined.

(** ** The request *)

(** X3.  The address passed to [fetch] is [data/latest.json?t=] followed
    by the time, and two different times give two different addresses,
    so no two loads at different milliseconds share a cache entry. *)
Theorem fetchUrl_distinct (now1 now2 : Z) :
  fetchUrl now1 = "data/latest.json?t=" +:+ pretty now1 /\
  (fetchUrl now1 = fetchUrl now2 -> now1 = now2).
Proof.
  split; [reflexivity|]. unfold fetchUrl, dataPath. intros Heq.
  apply (inj (String.append "data/latest.json")) in Heq.
  apply (inj (String.append "?t=")) in Heq.
  by apply (inj pretty) in Heq.
Qed.

(** ** Period labels and badges *)

Lemma whenElement_setTextContent_run id text w :
  whenElement id (setTextContent id text) w
  = (Normal tt,
     setElements (alter (fun _ => TextContent text) id (elements w)) w).
Proof.
  unfold whenElement. destruct (elements w !! id) as [c|] eqn:Hid.
  - unfold setTextContent, modify. do 2 f_equal. apply map_eq. intros j.
    rewrite lookup_alter, lookup_insert. case_decide; [by rewrite Hid|done].
  - f_equal. rewrite <- (setElements_same w) at 1. f_equal.
    apply map_eq. intros j. rewrite lookup_alter.
    case_decide; [subst; by rewrite Hid|done].
Qed.

Lemma updatePeriodBadges_run `{Host} w :
  updatePeriodBadges w
  = (Normal tt,
     setElements
       (alter (fun _ => TextContent (default "" (getPeriodLabel (currentPeriod w))))
          "losersPeriod"
          (alter (fun _ => TextContent
                             (default "" (getPeriodLabel (currentPeriod w))))
             "gainersPeriod" (elements w))) w).
Proof.
  unfold updatePeriodBadges.
  rewrite (bind_run _ _ w (currentPeriod w) w) by done. cbv beta zeta.
  erewrite bind_run by apply whenElement_setTextContent_run.
  by rewrite whenElement_setTextContent_run.
Qed.

(** X4.  [getPeriodLabel] gives the three known periods their labels.
    Any other period is returned as it is, unless [Object.prototype] has
    a member of that name ([constructor], [toString], ...): the label is
    then that member, which shows as its text.  [updatePeriodBadges]
    never throws, writes the label as the text of both badges (those
    the page has), the empty text when the label is undefined, and
    changes nothing else. *)
Theorem period_label_on_both_badges `{Host} (w : World) :
  getPeriodLabel (Some "5d") = Some "5日" /\
  getPeriodLabel (Some "10d") = Some "10日" /\
  getPeriodLabel (Some "20d") = Some "20日" /\
  (forall k, k <> "5d" -> k <> "10d" -> k <> "20d" ->
     objectPrototypeText k = None ->
     getPeriodLabel (Some k) = Some k) /\
  (forall k text, k <> "5d" -> k <> "10d" -> k <> "20d" ->
     objectPrototypeText k = Some text ->
     getPeriodLabel (Some k) = Some text) /\
  getPeriodLabel None = objectPrototypeText "undefined" /\
  exists e,
    updatePeriodBadges w = (Normal tt, setElements e w) /\
    (forall id, id = "gainersPeriod" \/ id = "losersPeriod" ->
       e !! id
       = (fun _ => TextContent (default "" (getPeriodLabel (currentPeriod w))))
         <$> elements w !! id) /\
    (forall id, id <> "gainersPeriod" -> id <> "losersPeriod" ->
       e !! id = elements w !! id).
Proof.
  assert (forall k, k <> "5d" -> k <> "10d" -> k <> "20d" ->
            labels !! k = None) as Hother.
  { intros k H5 H10 H20. unfold labels.
    rewrite !lookup_insert_ne by done. by rewrite lookup_singleton_ne. }
  split_and!; try reflexivity.
  - intros k H5 H10 H20 Hproto. unfold getPeriodLabel. cbn [periodKey default
      from_option id]. by rewrite (Hother k), Hproto.
  - intros k text H5 H10 H20 Hproto. unfold getPeriodLabel. cbn [periodKey
      default from_option id]. by rewrite (Hother k), Hproto.
  - unfold getPeriodLabel. cbn [periodKey default from_option id].
    rewrite (Hother "undefined") by done.
    by destruct (objectPrototypeText "undefined").
  - eexists. split; [apply updatePeriodBadges_run|]. split.
    + intros id [-> | ->].
      * rewrite lookup_alter_ne by done. by rewrite lookup_alter_eq.
      * by rewrite lookup_alter_eq, lookup_alter_ne.
    + intros id Hg Hl. by rewrite !lookup_alter_ne.
Qed.

Lemma period_label_on_both_badges_witness :
  @getPeriodLabel Sample.host (Some "30d") = Some "30d" /\
  @getPeriodLabel Sample.host (Some "constructor")
  = Some "function Object() { [native code] }".
Proof.
  destruct (@period_label_on_both_badges Sample.host Sample.loaded)
    as (_ & _ & _ & Hown & Hproto & _).
  split.
  - apply Hown; [discriminate..|vm_compute; reflexivity].
  - apply Hproto; [discriminate..|vm_compute; reflexivity].
Defined.

(** ** An average change that is missing or null *)



(** ** Edge cases of the ranking list *)

Lemma rankingItems_nullish `{Host} type l index :
  (exists x, x ∈ l /\ nullish x = true) -> rankingItems type l index = None.
Proof.
  revert index. induction l as [|y l IH]; intros index (x & Hin & Hx).
  - by apply elem_of_nil in Hin.
  - cbn [rankingItems]. apply elem_of_cons in Hin as [->|Hin].
    + by destruct y.
    + destruct (rankingItem type y index); [|done].
      cbn [mbind option_bind]. rewrite IH by eauto. done.
Qed.

(** X6.  [renderRankingList] returns the "no data" placeholder for a
    missing, [null] or otherwise falsy list and for the empty array,
    whatever the type.  It throws for an array that holds a [null] or
    missing entry, and for a truthy value that is not an array: a
    non-zero number, [true], or an object whose [length] is missing. *)
Theorem renderRankingList_edge_cases `{Host} (type : string) :
  (forall v, truthy v = false -> renderRankingList v type = Some emptyListView) /\
  renderRankingList (JArr []) type = Some emptyListView /\
  (forall l x, x ∈ l -> nullish x = true ->
     renderRankingList (JArr l) type = None) /\
  (forall n, numIsZero n = false -> renderRankingList (JNum n) type = None) /\
  renderRankingList (JBool true) type = None /\
  (forall m, m !! "length" = None -> renderRankingList (JObj m) type = None).
Proof.
  split_and!; try reflexivity.
  - intros v Hv. unfold renderRankingList. by rewrite Hv.
  - intros l x Hin Hx. unfold renderRankingList. cbn [truthy negb].
    cbn [getProp String.eqb Ascii.eqb Bool.eqb mbind option_bind].
    destruct l as [|y l]; [by apply elem_of_nil in Hin|].
    cbn [strictEqZero]. rewrite numIsZero_numOfNat, bool_decide_eq_false_2 by done.
    rewrite rankingItems_nullish by eauto. done.
  - intros n Hn. unfold renderRankingList. cbn [truthy].
    by rewrite Hn.
  - intros m Hm. unfold renderRankingList. cbn [truthy negb getProp].
    by rewrite Hm.
Qed.

(** ** The loader, for every response *)

(** X7.  [loadData] never throws, whatever the outcome of the request.
    A successful response replaces the stored snapshot by the parsed
    body as a whole and changes nothing else: the page keeps showing
    what it showed until [render] runs. *)
Theorem loadData_never_throws (r : Response) (w : World) :
  completes (loadDataSettle r) w = true /\
  (forall status v,
     r = HttpResponse true status (Some v) ->
     exec (loadDataSettle r) w = setData v w).
Proof.
  split.
  - destruct r as [|[] status [v|]]; try reflexivity;
      unfold completes, loadDataSettle, showError;
      by destruct (fill_run containers (errorView loadFailedMessage) w)
        as (e & -> & _).
  - by intros status v ->.
Qed.

(** ** Rendering without a snapshot *)



(** X9.  Without a snapshot ([this.data] is [null] or [undefined]) the
    renderers differ: [renderRankings] always throws; [renderUpdateTime],
    [renderMarketOverview] and [renderStatistics] throw exactly when
    their element exists, and return at once when it does not.  None of
    them changes anything before throwing. *)
Theorem renderers_without_snapshot `{Host} (w : World) :
  nullish (data w) = true ->
  let outcome (id : string) : Completion unit * World :=
    (match elements w !! id with Some _ => Thrown | None => Normal tt end, w) in
  renderRankings w = (Thrown, w) /\
  renderUpdateTime w = outcome "updateTime" /\
  renderMarketOverview w = outcome "marketOverview" /\
  renderStatistics w = outcome "statisticsContent".
Proof.
  intros Hdata. cbv zeta.
  assert (forall k, getProp (data w) k = None) as Hget
    by (intros k; by destruct (data w)).
  split_and!.
  - unfold renderRankings, mbind, M_bind, gets, lift. by rewrite Hget.
  - unfold renderUpdateTime, whenElement.
    destruct (elements w !! "updateTime"); [|done].
    unfold mbind, M_bind, gets, lift. by rewrite Hget.
  - unfold renderMarketOverview, whenElement.
    destruct (elements w !! "marketOverview"); [|done].
    unfold mbind, M_bind, gets, lift. by rewrite Hget.
  - unfold renderStatistics, whenElement.
    destruct (elements w !! "statisticsContent"); [|done].
    unfold mbind, M_bind, gets, lift. by rewrite Hget.
Qed.

Lemma renderers_without_snapshot_witness :
  let w := @dispatch Sample.host (DOMContentLoaded Sample.updatedAt) Sample.page in
  nullish (data w) = true /\
  (@renderRankings Sample.host) w = (Thrown, w).
Proof.
  intros w.
  assert (nullish (data w) = true) as Hdata by (vm_compute; reflexivity).
  split; [exact Hdata|].
  exact (proj1 (@renderers_without_snapshot Sample.host w Hdata)).
Defined.

(** ** More on tab clicks *)

(** X10.  A click on a bound tab button leaves the number of buttons and
    their periods as they are and makes the clicked button the only
    active one; the current period becomes that button's period.  This
    holds also when a renderer throws afterwards. *)
Theorem tab_click_activates_one `{Host} (i : nat) (btn : TabBtn) (w : World) :
  tabsBound w = true ->
  tabs w !! i = Some btn ->
  let w' := dispatch (TabClick i) w in
  length (tabs w') = length (tabs w) /\
  (forall j b, tabs w !! j = Some b ->
     tabs w' !! j = Some {| period := period b; active := bool_decide (j = i) |}) /\
  (forall j b, tabs w' !! j = Some b -> (active b = true <-> j = i)) /\
  currentPeriod w' = period btn.
Proof.
  intros Hbound Hbtn. cbv zeta. unfold dispatch, exec.
  rewrite tabClick_run, Hbtn, Hbound.
  destruct (rerender_writesOnly (selectTab i (period btn) w)) as (e & -> & _).
  cbn [tabs currentPeriod setElements selectTab setCurrentPeriod setTabs].
  assert (forall j, imap (fun j b => {| period := period b;
                                        active := bool_decide (j = i) |})
                      (tabs w) !! j
                    = (fun b => {| period := period b;
                                   active := bool_decide (j = i) |})
                      <$> tabs w !! j) as Hlookup
    by (intros j; apply list_lookup_imap).
  split_and!; try done.
  - apply length_imap.
  - intros j b Hj. by rewrite Hlookup, Hj.
  - intros j b. rewrite Hlookup. intros (b0 & _ & ->)%fmap_Some.
    cbn [active]. apply bool_decide_eq_true.
Qed.

Lemma tab_click_activates_one_witness :
  let w' := @dispatch Sample.host (TabClick 1) Sample.loaded in
  tabsBound Sample.loaded = true /\
  tabs Sample.loaded !! 1%nat = Some {| period := Some "10d"; active := false |} /\
  length (tabs w') = 3%nat /\
  currentPeriod w' = Some "10d".
Proof.
  intros w'.
  assert (tabsBound Sample.loaded = true) as Hbound by (vm_compute; reflexivity).
  assert (tabs Sample.loaded !! 1%nat
          = Some {| period := Some "10d"; active := false |}) as Hbtn
    by (vm_compute; reflexivity).
  destruct (@tab_click_activates_one Sample.host 1 _ Sample.loaded Hbound Hbtn)
    as (Hlen & _ & _ & Hperiod).
  split; [exact Hbound|]. split; [exact Hbtn|].
  split; [exact Hlen | exact Hperiod].
Defined.

(** X11.  A click on a bound tab button while no snapshot is stored
    (the first load failed) throws in [renderRankings]: the button is
    marked active and the period is switched, but no region and no
    badge is written. *)
Theorem tab_click_without_snapshot `{Host} (i : nat) (btn : TabBtn) (w : World) :
  tabsBound w = true ->
  tabs w !! i = Some btn ->
  nullish (data w) = true ->
  handler (TabClick i) w = (Thrown, selectTab i (period btn) w).
Proof.
  intros Hbound Hbtn Hdata. rewrite tabClick_run, Hbtn, Hbound.
  unfold mbind, M_bind.
  assert (renderRankings (selectTab i (period btn) w)
          = (Thrown, selectTab i (period btn) w)) as ->; [|done].
  unfold renderRankings, mbind, M_bind, gets, lift.
  cbn [data selectTab setCurrentPeriod setTabs].
  by destruct (data w).
Qed.

Lemma tab_click_without_snapshot_witness :
  let w := @dispatch Sample.host (FetchSettled 0 NetworkError)
             (@dispatch Sample.host (DOMContentLoaded Sample.updatedAt)
                Sample.page) in
  tabsBound w = true /\
  tabs w !! 2%nat = Some {| period := Some "20d"; active := false |} /\
  nullish (data w) = true /\
  @handler Sample.host (TabClick 2) w
  = (Thrown, selectTab 2 (Some "20d") w).
Proof.
  intros w.
  assert (tabsBound w = true) as Hbound by (vm_compute; reflexivity).
  assert (tabs w !! 2%nat = Some {| period := Some "20d"; active := false |})
    as Hbtn by (vm_compute; reflexivity).
  assert (nullish (data w) = true) as Hdata by (vm_compute; reflexivity).
  split; [exact Hbound|]. split; [exact Hbtn|]. split; [exact Hdata|].
  exact (@tab_click_without_snapshot Sample.host 2 _ w Hbound Hbtn Hdata).
Defined.

(** ** An update time that is not a string *)

(** X12.  When the page becomes visible, the analyzer exists and the
    stored [update_time] is truthy but not a string (a number of
    milliseconds, say), the staleness check throws at
    [lastUpdate.replace] and nothing is reloaded, however old the
    data. *)
Theorem visibility_update_time_not_string `{Host} (w : World) (now : Z) :
  created w = true ->
  truthy (getPropOpt (data w) "update_time") = true ->
  (forall s, getPropOpt (data w) "update_time" <> JStr s) ->
  handler (VisibilityChange true now) w = (Thrown, w).
Proof.
  intros Hcreated Htruthy Hstr.
  unfold handler, onVisibilityChange, mbind, M_bind, gets.
  cbn [andb]. rewrite Hcreated, Htruthy.
  destruct (getPropOpt (data w) "update_time") as [| | | |s| |]; try done.
  by destruct (Hstr s).
Qed.

Lemma visibility_update_time_not_string_witness :
  let w := setData (Sample.obj [("update_time", Sample.num 1715009400000 0)])
             Sample.loaded in
  created w = true /\
  truthy (getPropOpt (data w) "update_time") = true /\
  @handler Sample.host (VisibilityChange true (Sample.updatedAt + 86400000)) w
  = (Thrown, w).
Proof.
  intros w.
  assert (created w = true) as Hcreated by (vm_compute; reflexivity).
  assert (truthy (getPropOpt (data w) "update_time") = true) as Htruthy
    by (vm_compute; reflexivity).
  split; [exact Hcreated|]. split; [exact Htruthy|].
  apply (@visibility_update_time_not_string Sample.host w _ Hcreated Htruthy).
  intros s. vm_compute. discriminate.
Defined.

(** ** The market overview, entry by entry *)



(** ** What a page showed before does not matter to [render] *)

Lemma samePage_mono ids ids' w1 w2 :
  ids ⊆ ids' -> samePage ids w1 w2 -> samePage ids' w1 w2.
Proof.
  intros Hsub (Hrest & Hpres & Heq). split_and!; try done.
  intros id Hid. apply Heq. intros Hin. by apply Hid, Hsub.
Qed.

Lemma samePage_nil w1 w2 : samePage [] w1 w2 -> w1 = w2.
Proof.
  intros (Hrest & _ & Heq). rewrite Hrest.
  assert (elements w2 = elements w1) as ->.
  { apply map_eq. intros id. symmetry. apply Heq, not_elem_of_nil. }
  symmetry. apply setElements_same.
Qed.

Lemma overwrites_pure {A} ids (c : M A) :
  (forall w e, c (setElements e w) = (fst (c w), setElements e w)) ->
  overwrites ids ids c.
Proof.
  intros Hc w1 w2 Hsame. pose proof Hsame as (Hrest & Hpres & Heq).
  pose proof (Hc w1 (elements w1)) as H1. rewrite setElements_same in H1.
  apply (f_equal snd) in H1. cbn [snd] in H1.
  pose proof (Hc w1 (elements w2)) as H2. rewrite <- Hrest in H2.
  rewrite H2, H1. cbn [fst snd]. split; [done|].
  by destruct (fst (c w1)).
Qed.

Lemma overwrites_ret {A} ids (a : A) : overwrites ids ids (mret a).
Proof. by apply overwrites_pure. Qed.

Lemma overwrites_lift {A} ids (o : option A) : overwrites ids ids (lift o).
Proof. apply overwrites_pure. intros w e. by destruct o. Qed.

Lemma overwrites_gets_data ids : overwrites ids ids (gets data).
Proof. by apply overwrites_pure. Qed.

Lemma overwrites_gets_currentPeriod ids :
  overwrites ids ids (gets currentPeriod).
Proof. by apply overwrites_pure. Qed.

Lemma overwrites_bind {A B} before mid after (c : M A) (f : A -> M B) :
  mid ⊆ before ->
  overwrites before mid c -> (forall a, overwrites mid after (f a)) ->
  overwrites before after (c ≫= f).
Proof.
  intros Hsub Hc Hf w1 w2 Hsame. unfold mbind, M_bind.
  destruct (Hc w1 w2 Hsame) as [Hfst Hsnd].
  destruct (c w1) as [[a|] w1'], (c w2) as [[a'|] w2']; simplify_eq/=.
  - destruct (Hf a' w1' w2' Hsnd) as [Hfst' Hsnd']. split; [done|].
    destruct (fst (f a' w1')); [done|]. by eapply samePage_mono.
  - done.
Qed.

Lemma overwrites_set before after id (c : Content) :
  (forall x, x ∈ before -> x ∈ after \/ x = id) ->
  overwrites before after
    (modify (fun w => setElements (<[id := c]> (elements w)) w)).
Proof.
  intros Hcover w1 w2 (Hrest & Hpres & Heq). split; [done|].
  cbn [fst snd modify]. split_and!.
  - rewrite Hrest. by destruct w1.
  - intros x. cbn [elements setElements].
    destruct (decide (id = x)) as [->|Hne].
    + by rewrite !lookup_insert_eq.
    + rewrite !lookup_insert_ne by done. apply Hpres.
  - intros x Hx. cbn [elements setElements].
    destruct (decide (id = x)) as [->|Hne].
    + by rewrite !lookup_insert_eq.
    + rewrite !lookup_insert_ne by done. apply Heq.
      intros Hin. by destruct (Hcover x Hin) as [?| ->].
Qed.

Lemma overwrites_whenElement before after id (body : M unit) :
  (forall x, x ∈ before -> x ∈ after \/ x = id) ->
  overwrites before after body ->
  overwrites before after (whenElement id body).
Proof.
  intros Hcover Hbody w1 w2 Hsame. unfold whenElement.
  pose proof Hsame as (Hrest & Hpres & Heq).
  destruct (elements w1 !! id) as [c1|] eqn:H1,
           (elements w2 !! id) as [c2|] eqn:H2.
  - by apply Hbody.
  - pose proof (proj1 (Hpres id)) as Hp. rewrite H1, H2 in Hp.
    by destruct Hp as [? [=]].
  - pose proof (proj2 (Hpres id)) as Hp. rewrite H1, H2 in Hp.
    by destruct Hp as [? [=]].
  - split; [done|]. cbn [fst snd]. split_and!; try done.
    intros x Hx. destruct (decide (x ∈ before)) as [Hin|Hout].
    + destruct (Hcover x Hin) as [?| ->]; [done|]. by rewrite H1, H2.
    + by apply Heq.
Qed.

(** Proves that each element of an explicit list is in another explicit
    list, or is a given identifier. *)
Ltac covered :=
  let x := fresh "x" in
  intros x; unfold containers;
  rewrite ?elem_of_cons, ?elem_of_nil; solve [intuition eauto].

Lemma showError_overwrites message : overwrites containers [] (showError message).
Proof.
  unfold showError, containers, setInnerHTML. cbn [forEach].
  apply (overwrites_bind _ ["gainersList"; "losersList"; "statisticsContent"]);
    [list_incl| |intros _].
  { apply overwrites_whenElement; [covered|]. apply overwrites_set. covered. }
  apply (overwrites_bind _ ["losersList"; "statisticsContent"]);
    [list_incl| |intros _].
  { apply overwrites_whenElement; [covered|]. apply overwrites_set. covered. }
  apply (overwrites_bind _ ["statisticsContent"]); [list_incl| |intros _].
  { apply overwrites_whenElement; [covered|]. apply overwrites_set. covered. }
  apply (overwrites_bind _ []); [list_incl| |intros _].
  { apply overwrites_whenElement; [covered|]. apply overwrites_set. covered. }
  apply overwrites_ret.
Qed.

Lemma renderUpdateTime_overwrites `{Host} ids : overwrites ids ids renderUpdateTime.
Proof.
  unfold renderUpdateTime, setTextContent.
  apply overwrites_whenElement; [covered|].
  apply (overwrites_bind _ ids); [done|apply overwrites_gets_data|intros d].
  apply (overwrites_bind _ ids); [done|apply overwrites_lift|intros t].
  destruct (truthy t); [|apply overwrites_ret].
  apply (overwrites_bind _ ids); [done|apply overwrites_lift|intros s].
  apply overwrites_set. covered.
Qed.

Lemma renderMarketOverview_overwrites `{Host} :
  overwrites containers ["gainersList"; "losersList"; "statisticsContent"]
    renderMarketOverview.
Proof.
  unfold renderMarketOverview, containers, setInnerHTML.
  apply overwrites_whenElement; [covered|].
  apply (overwrites_bind _ containers); [done|apply overwrites_gets_data|intros d].
  apply (overwrites_bind _ containers); [done|apply overwrites_lift|intros o].
  destruct (negb (truthy o)); [apply overwrites_set; covered|].
  apply (overwrites_bind _ containers); [done|apply overwrites_lift|intros items].
  apply (overwrites_bind _ containers); [done|apply overwrites_lift|intros views].
  apply overwrites_set. covered.
Qed.

Lemma renderRankings_overwrites `{Host} :
  overwrites ["gainersList"; "losersList"; "statisticsContent"]
    ["statisticsContent"] renderRankings.
Proof.
  unfold renderRankings, setInnerHTML.
  apply (overwrites_bind _
           ["gainersList"; "losersList"; "statisticsContent"]); [done|apply overwrites_gets_data|intros d].
  apply (overwrites_bind _
           ["gainersList"; "losersList"; "statisticsContent"]); [done|apply overwrites_gets_currentPeriod|intros p].
  apply (overwrites_bind _
           ["gainersList"; "losersList"; "statisticsContent"]); [done|apply overwrites_lift|intros periods].
  apply (overwrites_bind _
           ["gainersList"; "losersList"; "statisticsContent"]); [done| |intros periodData].
  { destruct (truthy periods); [apply overwrites_lift|apply overwrites_ret]. }
  destruct (negb (truthy periods) || negb (truthy periodData)).
  - apply (overwrites_bind _ ["losersList"; "statisticsContent"]);
      [list_incl| |intros _].
    { apply overwrites_whenElement; [covered|]. apply overwrites_set. covered. }
    apply overwrites_whenElement; [covered|]. apply overwrites_set. covered.
  - apply (overwrites_bind _ ["losersList"; "statisticsContent"]);
      [list_incl| |intros _].
    { apply overwrites_whenElement; [covered|].
      apply (overwrites_bind _
           ["gainersList"; "losersList"; "statisticsContent"]); [done|apply overwrites_lift|intros g].
      apply (overwrites_bind _
           ["gainersList"; "losersList"; "statisticsContent"]); [done|apply overwrites_lift|intros html].
      apply overwrites_set. covered. }
    apply overwrites_whenElement; [covered|].
    apply (overwrites_bind _ ["losersList"; "statisticsContent"]); [done|apply overwrites_lift|intros g].
    apply (overwrites_bind _ ["losersList"; "statisticsContent"]); [done|apply overwrites_lift|intros html].
    apply overwrites_set. covered.
Qed.

Lemma renderStatistics_overwrites `{Host} :
  overwrites ["statisticsContent"] [] renderStatistics.
Proof.
  unfold renderStatistics, setInnerHTML.
  apply overwrites_whenElement; [covered|].
  apply (overwrites_bind _ ["statisticsContent"]); [done|apply overwrites_gets_data|intros d].
  apply (overwrites_bind _ ["statisticsContent"]); [done|apply overwrites_gets_currentPeriod|intros p].
  apply (overwrites_bind _ ["statisticsContent"]); [done|apply overwrites_lift|intros periods].
  cbv zeta.
  destruct (negb (truthy _)); [apply overwrites_set; covered|].
  apply (overwrites_bind _ ["statisticsContent"]); [done|apply overwrites_lift|intros items].
  apply (overwrites_bind _ ["statisticsContent"]); [done|apply overwrites_lift|intros views].
  apply overwrites_set. covered.
Qed.

Lemma updatePeriodBadges_overwrites `{Host} : overwrites [] [] updatePeriodBadges.
Proof.
  unfold updatePeriodBadges, setTextContent.
  apply (overwrites_bind _ []); [done|apply overwrites_gets_currentPeriod|intros p].
  cbv zeta.
  apply (overwrites_bind _ []); [done| |intros _].
  { apply overwrites_whenElement; [covered|]. apply overwrites_set. covered. }
  apply overwrites_whenElement; [covered|]. apply overwrites_set. covered.
Qed.

Lemma render_overwrites `{Host} : overwrites containers [] render.
Proof.
  unfold render.
  apply (overwrites_bind _ containers); [done|apply overwrites_gets_data|intros d].
  destruct (negb (truthy d)); [apply showError_overwrites|].
  apply (overwrites_bind _ containers);
    [done|apply renderUpdateTime_overwrites|intros _].
  apply (overwrites_bind _ ["gainersList"; "losersList"; "statisticsContent"]);
    [unfold containers; list_incl|apply renderMarketOverview_overwrites|intros _].
  apply (overwrites_bind _ ["statisticsContent"]);
    [list_incl|apply renderRankings_overwrites|intros _].
  apply (overwrites_bind _ []);
    [list_incl|apply renderStatistics_overwrites|intros _].
  apply updatePeriodBadges_overwrites.
Qed.

Lemma showError_samePage message w :
  samePage containers w (exec (showError message) w).
Proof.
  unfold exec, showError.
  destruct (fill_run containers (errorView message) w) as (e & -> & Hin & Hout).
  cbn [snd]. split_and!.
  - done.
  - intros id. cbn [elements setElements].
    destruct (decide (id ∈ containers)) as [Hid|Hid].
    + rewrite Hin by done. apply symmetry, fmap_is_Some.
    + by rewrite Hout.
  - intros id Hid. cbn [elements setElements]. by rewrite Hout.
Qed.

(** X14.  What the four regions held before does not matter to
    [render]: on two pages that differ at most in the content of these
    regions, [render] ends the same way, and when it completes the two
    resulting pages are equal.  Every region is written afresh. *)
Theorem render_ignores_previous_content `{Host} (w1 w2 : World) :
  samePage containers w1 w2 ->
  completes render w1 = completes render w2 /\
  (completes render w1 = true -> exec render w1 = exec render w2).
Proof.
  intros Hsame. destruct (render_overwrites w1 w2 Hsame) as [Hfst Hsnd].
  unfold completes, exec. rewrite <- Hfst. split; [done|].
  destruct (fst (render w1)); [|done]. intros _. by apply samePage_nil.
Qed.

Lemma render_ignores_previous_content_witness :
  let w2 := exec (showError loadFailedMessage) Sample.loaded in
  samePage containers Sample.loaded w2 /\
  completes (@render Sample.host) Sample.loaded
  = completes (@render Sample.host) w2.
Proof.
  intros w2.
  assert (samePage containers Sample.loaded w2) as Hsame
    by apply showError_samePage.
  split; [exact Hsame|].
  exact (proj1 (@render_ignores_previous_content Sample.host _ _ Hsame)).
Defined.

(** X15.  A reload that fails leaves no trace when a snapshot is held:
    if [render] completes on the page, then settling the reload with a
    failure (the error view, followed by the awaiting [render]) gives
    exactly the page that [render] alone gives once the request is no
    longer pending.  The error view is drawn over at once. *)
Theorem failed_reload_leaves_no_trace `{Host} (w : World) (i : nat)
    (r : Response) :
  let w1 := setNetwork (requests w) (delete i (pending w)) w in
  pending w !! i = Some AfterReload ->
  loadFailed r = true ->
  completes render w1 = true ->
  dispatch (FetchSettled i r) w = exec render w1.
Proof.
  intros w1 Hi Hfail Hrender. unfold dispatch, exec at 1.
  rewrite (fetchSettled_reload w i r Hi). fold w1.
  assert (loadDataSettle r = showError loadFailedMessage) as ->.
  { destruct r as [|[] status [v|]]; try reflexivity. discriminate Hfail. }
  pose proof (showError_samePage loadFailedMessage w1) as Hsame.
  destruct (render_overwrites _ _ Hsame) as [Hfst Hsnd].
  unfold completes in Hrender. unfold exec in *.
  unfold mbind, M_bind.
  destruct (fill_run containers (errorView loadFailedMessage) w1)
    as (e & Hrun & _).
  unfold showError in *. rewrite Hrun in *. cbn [snd] in *.
  destruct (fst (render w1)); [|done].
  symmetry. by apply samePage_nil.
Qed.

Lemma failed_reload_leaves_no_trace_witness :
  let w := @dispatch Sample.host
             (VisibilityChange true (Sample.updatedAt + 3600001)) Sample.loaded in
  pending w !! 0%nat = Some AfterReload /\
  loadFailed NetworkError = true /\
  @dispatch Sample.host (FetchSettled 0 NetworkError) w
  = exec (@render Sample.host) (setNetwork (requests w) (delete 0%nat (pending w)) w).
Proof.
  intros w.
  assert (pending w !! 0%nat = Some AfterReload) as Hi
    by (vm_compute; reflexivity).
  split; [exact Hi|]. split; [reflexivity|].
  apply (@failed_reload_leaves_no_trace Sample.host w 0 NetworkError Hi eq_refl).
  vm_compute. reflexivity.
Defined.

(** ** Starting up *)

Lemma construct_run now w :
  exists e,
    construct now w
    = (Normal tt,
       {| created := true; data := JNull; currentPeriod := Some "5d";
          elements := e; tabs := tabs w; tabsBound := tabsBound w;
          backToTop := backToTop w; backToTopBound := backToTopBound w;
          requests := fetchUrl now :: requests w;
          pending := pending w ++ [AfterInit] |}) /\
    (forall id, id ∈ containers ->
       e !! id = (fun _ => InnerHTML loadingView) <$> elements w !! id) /\
    (forall id, id ∉ containers -> e !! id = elements w !! id).
Proof.
  destruct (fill_run containers loadingView
              (setCurrentPeriod (Some "5d") (setData JNull w)))
    as (e & Hrun & Hin & Hout).
  exists e. split; [|done].
  unfold construct, mbind, M_bind, modify, showLoading, loadDataRequest.
  by rewrite Hrun.
Qed.

(** X16.  On [DOMContentLoaded], on a page where the analyzer does not
    exist yet: the analyzer is created with no snapshot and the period
    [5d], every region the page has shows the loading placeholder,
    exactly one request is issued and awaited by the rest of [init].
    Until it settles, tab clicks are ignored when the tab listeners are
    not bound yet, and a [visibilitychange] reloads nothing. *)
Theorem first_load_started `{Host} (w : World) (now : Z) :
  created w = false ->
  let w' := dispatch (DOMContentLoaded now) w in
  created w' = true /\
  data w' = JNull /\
  currentPeriod w' = Some "5d" /\
  requests w' = fetchUrl now :: requests w /\
  pending w' = (pending w ++ [AfterInit])%list /\
  (forall id, id ∈ containers ->
     elements w' !! id = (fun _ => InnerHTML loadingView) <$> elements w !! id) /\
  (forall id, id ∉ containers -> elements w' !! id = elements w !! id) /\
  (tabsBound w = false -> forall i, dispatch (TabClick i) w' = w') /\
  (forall visible now', dispatch (VisibilityChange visible now') w' = w').
Proof.
  intros Hcreated. cbv zeta.
  assert (dispatch (DOMContentLoaded now) w = snd (construct now w)) as ->.
  { unfold dispatch, exec, handler, mbind, M_bind, gets. by rewrite Hcreated. }
  destruct (construct_run now w) as (e & -> & Hin & Hout). cbn [snd].
  split_and!; try done.
  - intros Hbound i. unfold dispatch, exec, handler, mbind, M_bind, gets.
    cbn [tabsBound]. by rewrite Hbound.
  - intros visible now'.
    unfold dispatch, exec, handler, onVisibilityChange, mbind, M_bind, gets.
    cbn [created data getPropOpt getProp default from_option truthy andb].
    by destruct visible.
Qed.

Lemma first_load_started_witness :
  let w' := @dispatch Sample.host (DOMContentLoaded Sample.updatedAt) Sample.page in
  created Sample.page = false /\
  requests w' = ["data/latest.json?t=1715009400000"] /\
  pending w' = [AfterInit].
Proof.
  intros w'.
  destruct (@first_load_started Sample.host Sample.page Sample.updatedAt eq_refl)
    as (_ & _ & _ & Hreq & Hpend & _).
  split; [reflexivity|]. split; [exact Hreq | exact Hpend].
Defined.



(** ** What every listener preserves *)

Lemma keepsElements_pure {A} present (c : M A) :
  (forall w, snd (c w) = w) -> keepsElements present c.
Proof.
  intros Hc w _. exists (elements w). by rewrite Hc, setElements_same.
Qed.

Lemma keepsElements_bind {A B} present (c : M A) (f : A -> M B) :
  keepsElements present c -> (forall a, keepsElements present (f a)) ->
  keepsElements present (c ≫= f).
Proof.
  intros Hc Hf w Hpresent. unfold mbind, M_bind.
  destruct (Hc w Hpresent) as (e & He & Hsame).
  destruct (c w) as [[a|] w1]; cbn [snd] in He; subst w1; [|by exists e].
  destruct (Hf a (setElements e w)) as (e' & He' & Hsame').
  { intros id Hid. cbn [elements setElements]. by apply Hsame, Hpresent. }
  exists e'. rewrite He'. split; [done|].
  intros id. rewrite Hsame'. apply Hsame.
Qed.

Lemma keepsElements_set present id (c : Content) :
  id ∈ present ->
  keepsElements present
    (modify (fun w => setElements (<[id := c]> (elements w)) w)).
Proof.
  intros Hid w Hpresent. eexists. split; [reflexivity|].
  intros x. destruct (decide (id = x)) as [->|Hne].
  - rewrite lookup_insert_eq. split; [intros _; by apply Hpresent|by eexists].
  - by rewrite lookup_insert_ne.
Qed.

Lemma keepsElements_whenElement present id (body : M unit) :
  keepsElements (id :: present) body ->
  keepsElements present (whenElement id body).
Proof.
  intros Hbody w Hpresent. unfold whenElement.
  destruct (elements w !! id) as [c|] eqn:Hid.
  - apply Hbody. intros x [->|Hx]%elem_of_cons; [by eexists|by apply Hpresent].
  - exists (elements w). by rewrite setElements_same.
Qed.

Lemma keepsElements_forEach {A} present (l : list A) (f : A -> M unit) :
  (forall x, keepsElements present (f x)) -> keepsElements present (forEach l f).
Proof.
  intros Hf. induction l as [|x l IH]; cbn [forEach].
  - by apply keepsElements_pure.
  - apply keepsElements_bind; [apply Hf|intros _; apply IH].
Qed.

Ltac keeps_steps :=
  repeat first
    [ apply keepsElements_pure; (intros ?; reflexivity)
    | apply keepsElements_whenElement
    | apply keepsElements_set; left
    | apply keepsElements_forEach; intros ?
    | apply keepsElements_bind; [| intros ?]
    | match goal with
      | |- keepsElements _ (lift ?o) =>
          apply keepsElements_pure; intros ?; destruct o; reflexivity
      | |- keepsElements _ (if ?b then _ else _) => destruct b
      | |- keepsElements _ (match ?o with _ => _ end) => destruct o
      end ].

Lemma showError_keepsElements message : keepsElements [] (showError message).
Proof. unfold showError, setInnerHTML. keeps_steps. Qed.

Lemma renderRankings_keepsElements `{Host} : keepsElements [] renderRankings.
Proof. unfold renderRankings, setInnerHTML. keeps_steps. Qed.

Lemma renderStatistics_keepsElements `{Host} : keepsElements [] renderStatistics.
Proof. unfold renderStatistics, setInnerHTML. cbv zeta. keeps_steps. Qed.

Lemma updatePeriodBadges_keepsElements `{Host} : keepsElements [] updatePeriodBadges.
Proof. unfold updatePeriodBadges, setTextContent. cbv zeta. keeps_steps. Qed.

Lemma render_keepsElements `{Host} : keepsElements [] render.
Proof.
  unfold render.
  apply keepsElements_bind; [by apply keepsElements_pure|intros d].
  destruct (negb (truthy d)); [apply showError_keepsElements|].
  apply keepsElements_bind; [|intros _].
  { unfold renderUpdateTime, setTextContent. keeps_steps. }
  apply keepsElements_bind; [|intros _].
  { unfold renderMarketOverview, setInnerHTML. keeps_steps. }
  apply keepsElements_bind; [apply renderRankings_keepsElements|intros _].
  apply keepsElements_bind; [apply renderStatistics_keepsElements|intros _].
  apply updatePeriodBadges_keepsElements.
Qed.

Lemma Step_refl w : Step w w.
Proof.
  split_and!; try done. exists []. split; [done|]. simpl. lia.
Qed.

Lemma Step_trans w1 w2 w3 : Step w1 w2 -> Step w2 w3 -> Step w1 w3.
Proof.
  intros (He & Ht & Hb & (new & Hr & Hp) & Hc)
         (He' & Ht' & Hb' & (new' & Hr' & Hp') & Hc').
  split_and!.
  - intros id. rewrite He'. apply He.
  - by rewrite Ht'.
  - by rewrite Hb'.
  - exists (new' ++ new)%list. split.
    + by rewrite Hr', Hr, app_assoc.
    + rewrite length_app. lia.
  - auto.
Qed.

Lemma steps_keepsElements {A} (c : M A) : keepsElements [] c -> steps c.
Proof.
  intros Hc w. destruct (Hc w) as (e & -> & Hsame).
  { intros id Hid. by apply elem_of_nil in Hid. }
  split_and!; try done. exists []. split; [done|]. simpl. lia.
Qed.

Lemma steps_bind {A B} (c : M A) (f : A -> M B) :
  steps c -> (forall a, steps (f a)) -> steps (c ≫= f).
Proof.
  intros Hc Hf w. unfold mbind, M_bind. specialize (Hc w).
  destruct (c w) as [[a|] w1]; cbn [snd] in *; [|done].
  eapply Step_trans; [done|apply Hf].
Qed.

Lemma steps_pure {A} (c : M A) : (forall w, snd (c w) = w) -> steps c.
Proof. intros Hc w. rewrite Hc. apply Step_refl. Qed.

Lemma steps_modify (f : World -> World) :
  (forall w, Step w (f w)) -> steps (modify f).
Proof. intros Hf w. apply Hf. Qed.

Lemma fmap_period_imap i (ts : list TabBtn) :
  period <$> imap (fun j b => {| period := period b;
                                 active := bool_decide (j = i) |}) ts
  = period <$> ts.
Proof.
  apply list_eq. intros j. rewrite !list_lookup_fmap, list_lookup_imap.
  by destruct (ts !! j).
Qed.

Lemma length_delete_le {A} (l : list A) i :
  (length (delete i l) <= length l)%nat.
Proof.
  revert i. induction l as [|x l IH]; intros [|i]; simpl; try lia.
  specialize (IH i). lia.
Qed.

(** A step that touches neither the structure of the page nor the
    requests. *)
Ltac same_structure :=
  split_and!; [done..|exists []; split; [done|simpl; lia]|done].

Lemma handler_steps `{Host} e : steps (handler e).
Proof.
  destruct e as [now|visible now|i r|i|scrollY|].
  - cbn [handler].
    apply steps_bind; [by apply steps_pure|]. intros [|]; [by apply steps_pure|].
    intros w. destruct (construct_run now w) as (e & -> & Hin & Hout).
    cbn [snd]. split_and!; try done.
    + intros id. cbn [elements]. destruct (decide (id ∈ containers)).
      * rewrite Hin by done. apply fmap_is_Some.
      * by rewrite Hout.
    + exists [fetchUrl now]. split; [done|].
      cbn [pending]. rewrite length_app. simpl. lia.
  - cbn [handler]. unfold onVisibilityChange.
    apply steps_bind; [by apply steps_pure|]. intros c.
    destruct (visible && c); [|by apply steps_pure].
    apply steps_bind; [by apply steps_pure|]. intros d. cbv zeta.
    destruct (truthy _); [|by apply steps_pure].
    destruct (getPropOpt d "update_time");
      try (by apply steps_pure).
    destruct (dateParse _) as [t|]; [|by apply steps_pure].
    destruct (_ <? _)%Z; [|by apply steps_pure].
    apply steps_modify. intros w. split_and!; try done.
    exists [fetchUrl now]. split; [done|].
    cbn [pending setNetwork]. rewrite length_app. simpl. lia.
  - cbn [handler]. apply steps_bind; [by apply steps_pure|]. intros ps.
    destruct (ps !! i) as [k|] eqn:Hk; [|by apply steps_pure].
    apply steps_bind; [|intros _].
    { apply steps_modify. intros w. split_and!; try done.
      exists []. split; [done|]. cbn [pending setNetwork].
      pose proof (length_delete_le (pending w) i). simpl. lia. }
    apply steps_bind; [|intros _].
    { destruct r as [|[] status [v|]]; cbn [loadDataSettle];
        first [ apply steps_keepsElements, showError_keepsElements
              | apply steps_modify; intros w; same_structure ]. }
    destruct k; cbn [resume].
    + apply steps_bind; [apply steps_modify; intros w; same_structure|intros _].
      apply steps_bind;
        [apply steps_keepsElements, render_keepsElements|intros _].
      unfold initBackToTop.
      apply steps_bind; [by apply steps_pure|]. intros [b|];
        [|by apply steps_pure].
      apply steps_modify. intros w. same_structure.
    + apply steps_keepsElements, render_keepsElements.
  - intros w. rewrite tabClick_run.
    destruct (tabs w !! i) as [btn|]; [destruct (tabsBound w)|];
      try apply Step_refl.
    eapply Step_trans; [|apply steps_bind;
      [apply steps_keepsElements, renderRankings_keepsElements|intros _;
       apply steps_bind;
         [apply steps_keepsElements, renderStatistics_keepsElements|intros _;
          apply steps_keepsElements, updatePeriodBadges_keepsElements]]].
    split_and!; try done.
    + cbn [tabs selectTab setCurrentPeriod setTabs]. apply fmap_period_imap.
    + exists []. split; [done|]. simpl. lia.
  - cbn [handler].
    apply steps_bind; [by apply steps_pure|]. intros [|]; [|by apply steps_pure].
    apply steps_modify. intros w. split_and!; try done.
    + cbn [backToTop setBackToTop]. apply fmap_is_Some.
    + exists []. split; [done|]. simpl. lia.
  - by apply steps_pure.
Qed.

Lemma run_Step `{Host} es w : Step w (run es w).
Proof.
  revert w. induction es as [|e es IH]; intros w; [apply Step_refl|].
  eapply Step_trans; [apply (handler_steps e w)|apply IH].
Qed.

(** X19.  The requests issued are only ever added to: after any sequence
    of events the earlier requests are still there, in order, below the
    new ones, and the number of loads still awaited has grown by at most
    the number of new requests.  Started from a page without requests,
    there are never more awaited loads than requests. *)
Theorem requests_only_grow `{Host} (es : list Event) (w : World) :
  let w' := run es w in
  (exists new,
     requests w' = (new ++ requests w)%list /\
     (length (pending w') <= length (pending w) + length new)%nat) /\
  (pending w = [] -> (length (pending w') <= length (requests w'))%nat).
Proof.
  destruct (run_Step es w) as (_ & _ & _ & (new & Hr & Hp) & _). cbv zeta.
  split; [by exists new|]. intros Hnil. rewrite Hnil in Hp.
  rewrite Hr, length_app. simpl in Hp. lia.
Qed.

(** ** Before the script starts *)

Lemma dispatch_before_start `{Host} e w :
  created w = false -> tabsBound w = false -> backToTopBound w = false ->
  pending w = [] -> isStart e = false ->
  dispatch e w = w.
Proof.
  intros Hc Ht Hb Hp He.
  destruct e as [now|visible now|i r|i|scrollY|]; try done;
    unfold dispatch, exec, handler, onVisibilityChange, mbind, M_bind, gets.
  - by rewrite Hc, andb_false_r.
  - by rewrite Hp.
  - by rewrite Ht.
  - by rewrite Hb.
Qed.

(** X20.  Before [DOMContentLoaded] nothing happens: on a page where
    the analyzer does not exist, no listener is bound and no load is
    awaited, any sequence of other events (visibility changes, clicks,
    scrolling, settled requests) leaves the page exactly as it is. *)
Theorem nothing_before_start `{Host} (es : list Event) (w : World) :
  created w = false -> tabsBound w = false -> backToTopBound w = false ->
  pending w = [] ->
  forallb (fun e => negb (isStart e)) es = true ->
  run es w = w.
Proof.
  intros Hc Ht Hb Hp. induction es as [|e es IH]; [done|].
  cbn [forallb]. intros [He Hes]%andb_true_iff. cbn [run foldl].
  rewrite dispatch_before_start; [by apply IH|done..|by destruct (isStart e)].
Qed.

Lemma nothing_before_start_witness :
  let es := [VisibilityChange true Sample.updatedAt; TabClick 1; Scroll 500;
             FetchSettled 0 NetworkError; BackToTopClick] in
  created Sample.page = false /\
  forallb (fun e => negb (isStart e)) es = true /\
  @run Sample.host es Sample.page = Sample.page.
Proof.
  intros es. split; [reflexivity|]. split; [reflexivity|].
  exact (@nothing_before_start Sample.host es Sample.page
           eq_refl eq_refl eq_refl eq_refl eq_refl).
Defined.

(** ** What [render] may write *)

Lemma render_writesOnly `{Host} : writesOnly renderRegions render.
Proof.
  unfold render. apply writesOnly_bind; [apply writesOnly_gets|intros d].
  destruct (negb (truthy d)).
  - eapply writesOnly_mono; [|apply showError_writesOnly].
    unfold containers, renderRegions. list_incl.
  - repeat (apply writesOnly_bind; [|intros _]).
    + eapply writesOnly_mono; [|apply renderUpdateTime_writesOnly].
      unfold renderRegions. list_incl.
    + eapply writesOnly_mono; [|apply renderMarketOverview_writesOnly].
      unfold renderRegions. list_incl.
    + eapply writesOnly_mono; [|apply renderRankings_writesOnly].
      unfold renderRegions. list_incl.
    + eapply writesOnly_mono; [|apply renderStatistics_writesOnly].
      unfold renderRegions. list_incl.
    + eapply writesOnly_mono; [|apply updatePeriodBadges_writesOnly].
      unfold renderRegions. list_incl.
Qed.

(** X21.  Whether it completes or throws, [render] assigns to nothing
    but the content of seven elements (the update time, the four
    regions and the two badges): the snapshot, the period, the tab
    buttons, the listeners, the requests and what every other element
    holds stay as they are. *)
Theorem render_writes_only_its_regions `{Host} (w : World) :
  exists e,
    exec render w = setElements e w /\
    (forall id, id ∉ renderRegions -> e !! id = elements w !! id).
Proof.
  destruct (render_writesOnly w) as (e & He & Hframe).
  exists e. unfold exec. by rewrite He.
Qed.

(** ** What holds on every page the events lead to *)

Lemma setData_same w : setData (data w) w = w.
Proof. by destruct w. Qed.

Lemma loadDataSettle_shape r w :
  exists d e, snd (loadDataSettle r w) = setElements e (setData d w).
Proof.
  destruct r as [|[] status [v|]]; cbn [loadDataSettle];
    try (destruct (showError_writesOnly loadFailedMessage w) as (e & -> & _);
         exists (data w), e; by rewrite setData_same).
  exists v, (elements w). by destruct w.
Qed.

Lemma fetchSettled_shape `{Host} w i r k :
  pending w !! i = Some k ->
  exists d e tb bb,
    dispatch (FetchSettled i r) w
    = {| created := created w; data := d; currentPeriod := currentPeriod w;
         elements := e; tabs := tabs w; tabsBound := tb;
         backToTop := backToTop w; backToTopBound := bb;
         requests := requests w; pending := delete i (pending w) |} /\
    (tb = tabsBound w \/ k = AfterInit /\ tb = true) /\
    (bb = backToTopBound w \/
     k = AfterInit /\ tb = true /\ is_Some (backToTop w)).
Proof.
  intros Hk. unfold dispatch, exec, handler.
  unfold mbind at 1, M_bind at 1, gets. cbv beta iota. rewrite Hk.
  unfold mbind at 1, M_bind at 1, modify. cbv beta iota.
  set (w1 := setNetwork (requests w) (delete i (pending w)) w).
  unfold mbind at 1, M_bind at 1.
  destruct (loadDataSettle_shape r w1) as (d & e & Hsettle).
  destruct (loadDataSettle r w1) as [[[]|] w2]; cbn [snd] in Hsettle; subst w2;
    [|exists d, e, (tabsBound w), (backToTopBound w); cbn;
      split; [reflexivity|]; split; auto].
  destruct k; cbn [resume].
  - unfold mbind at 1, M_bind at 1, bindEvents, modify. cbv beta iota.
    set (w3 := setTabsBound true (setElements e (setData d w1))).
    unfold mbind at 1, M_bind at 1.
    destruct (render_writesOnly w3) as (e' & Hrender & _).
    destruct (render w3) as [[[]|] w4]; cbn [snd] in Hrender; subst w4.
    + unfold initBackToTop, mbind, M_bind, gets, modify.
      cbn [backToTop setElements w3 setTabsBound setData w1 setNetwork].
      destruct (backToTop w) as [b|] eqn:Hb; cbn [snd].
      * exists d, e', true, true. cbn. rewrite ?Hb. split; [done|].
        split; [by right|]. right. split_and!; eauto.
      * exists d, e', true, (backToTopBound w). cbn.
        split; [by rewrite <- Hb|]. split; auto.
    + exists d, e', true, (backToTopBound w). cbn.
      split; [reflexivity|]. split; auto.
  - destruct (render_writesOnly (setElements e (setData d w1)))
      as (e' & -> & _).
    exists d, e', (tabsBound w), (backToTopBound w). cbn.
    split; [reflexivity|]. split; auto.
Qed.

Lemma visibility_shape `{Host} w visible now :
  dispatch (VisibilityChange visible now) w = w \/
  created w = true /\
  dispatch (VisibilityChange visible now) w
  = setNetwork (fetchUrl now :: requests w) (pending w ++ [AfterReload]) w.
Proof.
  unfold dispatch, exec, handler, onVisibilityChange, mbind, M_bind, gets.
  cbv beta iota zeta.
  destruct visible, (created w); cbn [andb]; auto.
  destruct (truthy _); auto.
  destruct (getPropOpt (data w) "update_time"); auto.
  destruct (dateParse _); auto.
  destruct (_ <? _)%Z; auto.
Qed.

Lemma tabClick_shape `{Host} w i :
  dispatch (TabClick i) w = w \/
  exists btn e,
    tabs w !! i = Some btn /\ tabsBound w = true /\
    dispatch (TabClick i) w = setElements e (selectTab i (period btn) w).
Proof.
  unfold dispatch, exec. rewrite tabClick_run.
  destruct (tabs w !! i) as [btn|]; [destruct (tabsBound w)|]; auto.
  right. destruct (rerender_writesOnly (selectTab i (period btn) w))
    as (e & -> & _).
  by exists btn, e.
Qed.

Lemma Inv_dispatch `{Host} e w : Inv w -> Inv (dispatch e w).
Proof.
  intros Hinv. pose proof Hinv as (Htabs & Hinit & Hbtt & Hperiod & Hnone).
  destruct e as [now|visible now|i r|i|scrollY|].
  - unfold dispatch, exec, handler, mbind, M_bind, gets.
    destruct (created w) eqn:Hc; [exact Hinv|].
    destruct (construct_run now w) as (e & -> & _). cbn [snd].
    split_and!; cbn; try done. by left.
  - destruct (visibility_shape w visible now) as [-> | [Hc ->]]; [done|].
    split_and!; cbn; try done.
    all: try (intros [Hin|Hin]%elem_of_app; [auto|];
              by apply list_elem_of_singleton in Hin).
  - destruct (pending w !! i) as [k|] eqn:Hk.
    + destruct (fetchSettled_shape w i r k Hk)
        as (d & e & tb & bb & -> & Htb & Hbb).
      assert (AfterInit ∈ pending w -> created w = true) as Hinit' by done.
      assert (k = AfterInit -> created w = true) as Hk'.
      { intros ->. apply Hinit. by eapply list_elem_of_lookup_2. }
      split_and!; cbn; try done.
      * intros Ht. destruct Htb as [Heq|[Hki _]]; [|by apply Hk'].
        apply Htabs. by rewrite <- Heq.
      * intros Hin. apply Hinit. revert Hin. clear. revert i.
        induction (pending w) as [|x l IH]; intros [|i] Hin; cbn in *;
          try done; [by right|].
        apply elem_of_cons in Hin as [->|Hin]; [by left|right; eauto].
      * intros Hb. destruct Hbb as [Heq|(_ & Ht & Hsome)]; [|done].
        destruct (Hbtt ltac:(by rewrite <- Heq)) as [Ht Hsome].
        split; [|done]. destruct Htb as [Heq'|[_ Heq']]; congruence.
    + assert (dispatch (FetchSettled i r) w = w) as ->; [|done].
      unfold dispatch, exec, handler, mbind, M_bind, gets. by rewrite Hk.
  - destruct (tabClick_shape w i) as [-> | (btn & e & Hbtn & Hb & ->)]; [done|].
    split_and!; cbn; try done.
    + intros _. right. rewrite fmap_period_imap.
      apply list_elem_of_fmap. exists btn. split; [done|].
      by eapply list_elem_of_lookup_2.
    + intros Hc. rewrite Htabs in Hc; done.
  - unfold dispatch, exec, handler, mbind, M_bind, gets, onScroll, modify.
    destruct (backToTopBound w) eqn:Hb; [|exact Hinv].
    split_and!; cbn; try done.
    intros _. destruct (Hbtt eq_refl) as [? ?]. split; [done|].
    by apply fmap_is_Some.
  - done.
Qed.

Lemma Inv_run `{Host} es w : Inv w -> Inv (run es w).
Proof.
  revert w. induction es as [|e es IH]; intros w Hw; [done|].
  apply IH. by apply Inv_dispatch.
Qed.

(** X22.  On every page that a sequence of events leads to from a page
    before the script ran: the tab listeners are bound only when the
    analyzer exists, the back-to-top listeners only after the tab
    listeners and only when the page has the button, and the current
    period of the analyzer is [5d] or the [data-period] of one of the
    page's tab buttons. *)
Theorem listeners_and_period_invariant `{Host} (es : list Event)
    (els : gmap string Content) (ts : list TabBtn) (btt : option bool) :
  let w := run es (initialWorld els ts btt) in
  (tabsBound w = true -> created w = true) /\
  (backToTopBound w = true -> tabsBound w = true /\ is_Some btt) /\
  (created w = true ->
   currentPeriod w = Some "5d" \/ currentPeriod w ∈ period <$> ts) /\
  (created w = false -> currentPeriod w = None).
Proof.
  cbv zeta.
  assert (Inv (initialWorld els ts btt)) as Hinit.
  { split_and!; cbn; try done. intros Hin. by apply elem_of_nil in Hin. }
  destruct (Inv_run es _ Hinit) as (Htabs & _ & Hbtt & Hperiod & Hnone).
  destruct (run_Step es (initialWorld els ts btt)) as (_ & Hts & Hb & _).
  cbn [tabs backToTop initialWorld] in Hts, Hb.
  split_and!; try done.
  - intros Hbound. destruct (Hbtt Hbound) as [? ?]. split; [done|].
    by apply Hb.
  - intros Hc. rewrite <- Hts. by apply Hperiod.
Qed.

(** ** The statistics panel, entry by entry *)



(** ** The update time *)

(** X24.  [renderUpdateTime] shows a stored [update_time] string as the
    text of the update-time element; when [update_time] is missing or
    empty it leaves the element as it is, so that the time shown before
    stays on the page. *)
Theorem renderUpdateTime_keeps_old_time `{Host} (w : World) :
  nullish (data w) = false ->
  (truthy (getPropOpt (data w) "update_time") = false ->
   renderUpdateTime w = (Normal tt, w)) /\
  (forall s old, getPropOpt (data w) "update_time" = JStr s -> s <> "" ->
     elements w !! "updateTime" = Some old ->
     renderUpdateTime w
     = (Normal tt,
        setElements (<["updateTime" := TextContent s]> (elements w)) w)).
Proof.
  intros Hdata. split.
  - intros Hfalsy. unfold renderUpdateTime, whenElement.
    destruct (elements w !! "updateTime"); [|done].
    rewrite (bind_run _ _ w (data w) w) by done. cbv beta.
    rewrite (bind_run _ _ w (getPropOpt (data w) "update_time") w)
      by (by rewrite (getProp_getPropOpt _ _ Hdata)).
    cbv beta. by rewrite Hfalsy.
  - intros s old Htime Hs Hel. unfold renderUpdateTime.
    rewrite (whenElement_Some _ _ _ _ Hel).
    rewrite (bind_run _ _ w (data w) w) by done. cbv beta.
    rewrite (bind_run _ _ w (JStr s) w)
      by (by rewrite (getProp_getPropOpt _ _ Hdata), Htime).
    cbv beta. rewrite (truthy_JStr s Hs).
    by rewrite (bind_run _ _ w s w).
Qed.

Lemma renderUpdateTime_keeps_old_time_witness :
  let w := setData (Sample.obj [("periods", Sample.obj [])]) Sample.loaded in
  nullish (data w) = false /\
  truthy (getPropOpt (data w) "update_time") = false /\
  elements (exec (@renderUpdateTime Sample.host) w) !! "updateTime"
  = Some (TextContent "2024-05-06 15:30:00").
Proof.
  intros w.
  assert (nullish (data w) = false) as Hdata by (vm_compute; reflexivity).
  assert (truthy (getPropOpt (data w) "update_time") = false) as Hfalsy
    by (vm_compute; reflexivity).
  split; [exact Hdata|]. split; [exact Hfalsy|].
  unfold exec.
  rewrite (proj1 (renderUpdateTime_keeps_old_time w Hdata) Hfalsy).
  vm_compute. reflexivity.
Defined.

(** ** Both ranking lists *)




